(** * upbot-operator: the Ingress watcher and the Monitor reconciler

    A shallow embedding of the two controllers of the operator,

    - [internal/controller/monitor_controller.go]  (module [MonitorController]),
    - [internal/controller/ingress_watcher_controller.go]
      (module [IngressWatcher]),
    - the annotation-aware revision of the Ingress watcher whose text is
      carried at the end of [docs/VERSION_MANAGEMENT.md]
      (module [AnnotatedWatcher]),

    over an explicit model of their two collaborators: the Kubernetes API
    store (objects by namespaced name) and the Upbot monitoring service.
    Every reconcile is a computation in a small state-and-trace monad: it
    threads the store and records each client call it issues, in order. *)

From Stdlib Require Import ZArith Lia.
From stdpp Require Import gmap strings list fin_maps.

Local Open Scope Z_scope.

(** ** Errors *)

(** The error values the controllers can see.  [ErrNotFound] is the API
    store's NotFound status (what [errors.IsNotFound] recognises);
    [ErrApi generic msg] is an error of the Upbot SDK, [generic] telling
    whether its dynamic type is [*upbot.GenericOpenAPIError]. *)
Inductive error : Type :=
| ErrNotFound
| ErrAlreadyExists
| ErrStore (msg : string)
| ErrFmt (msg : string)
| ErrOwner (msg : string)
| ErrApi (generic : bool) (msg : string).

(** [errors.IsNotFound(err)], on an optional error ([nil] is [None]). *)
Definition IsNotFound (err : option error) : bool :=
  match err with
  | Some ErrNotFound => true
  | _ => false
  end.

(** [client.IgnoreNotFound(err)]. *)
Definition IgnoreNotFound (err : error) : option error :=
  match err with
  | ErrNotFound => None
  | e => Some e
  end.

(** ** Objects of the API store *)

(** [types.NamespacedName]: namespace first, then name. *)
Definition Key : Type := (string * string)%type.

Record OwnerReference : Type := {
  APIVersion : string;
  Kind : string;
  OwnerName : string;
  OwnerUID : string;
  Controller : bool;
  BlockOwnerDeletion : bool
}.

(** [metav1.ObjectMeta], the fields the controllers read or write.  A
    timestamp is a number of nanoseconds counted from Go's zero instant, so
    that [0] is the zero [time.Time]; [None] is the [nil] pointer. *)
Record ObjectMeta : Type := {
  Name : string;
  Namespace : string;
  UID : string;
  Labels : gmap string string;
  Annotations : gmap string string;
  Finalizers : list string;
  DeletionTimestamp : option Z;
  OwnerReferences : list OwnerReference
}.

Record MonitorSpec : Type := {
  Type_ : string;
  Target : string;
  Interval : string
}.

Record MonitorStatus : Type := {
  ExternalID : string
}.

Record Monitor : Type := {
  Meta : ObjectMeta;
  Spec : MonitorSpec;
  Status : MonitorStatus
}.

Record IngressRule : Type := {
  Host : string
}.

Record IngressTLS : Type := {
  Hosts : list string;
  SecretName : string
}.

Record Ingress : Type := {
  IMeta : ObjectMeta;
  Rules : list IngressRule;
  TLS : list IngressTLS
}.

Definition key_of (o : ObjectMeta) : Key := (Namespace o, Name o).

(** [IsZero] of a [metav1.Time] pointer: a nil pointer or the zero instant. *)
Definition Time_IsZero (t : option Z) : bool :=
  match t with
  | None => true
  | Some ns => Z.eqb ns 0
  end.

(** Reading a Go map at a key: the zero value [""] when the key is missing. *)
Definition map_index (m : gmap string string) (k : string) : string :=
  default ""%string (m !! k).

Definition with_finalizers (fs : list string) (m : Monitor) : Monitor :=
  {| Meta := {| Name := Name (Meta m); Namespace := Namespace (Meta m);
                UID := UID (Meta m); Labels := Labels (Meta m);
                Annotations := Annotations (Meta m); Finalizers := fs;
                DeletionTimestamp := DeletionTimestamp (Meta m);
                OwnerReferences := OwnerReferences (Meta m) |};
     Spec := Spec m; Status := Status m |}.

Definition with_deletion (t : option Z) (m : Monitor) : Monitor :=
  {| Meta := {| Name := Name (Meta m); Namespace := Namespace (Meta m);
                UID := UID (Meta m); Labels := Labels (Meta m);
                Annotations := Annotations (Meta m);
                Finalizers := Finalizers (Meta m);
                DeletionTimestamp := t;
                OwnerReferences := OwnerReferences (Meta m) |};
     Spec := Spec m; Status := Status m |}.

Definition with_owners (os : list OwnerReference) (m : Monitor) : Monitor :=
  {| Meta := {| Name := Name (Meta m); Namespace := Namespace (Meta m);
                UID := UID (Meta m); Labels := Labels (Meta m);
                Annotations := Annotations (Meta m);
                Finalizers := Finalizers (Meta m);
                DeletionTimestamp := DeletionTimestamp (Meta m);
                OwnerReferences := os |};
     Spec := Spec m; Status := Status m |}.

Definition with_spec (s : MonitorSpec) (m : Monitor) : Monitor :=
  {| Meta := Meta m; Spec := s; Status := Status m |}.

Definition with_status (s : MonitorStatus) (m : Monitor) : Monitor :=
  {| Meta := Meta m; Spec := Spec m; Status := s |}.

(** ** controllerutil *)

(** [controllerutil.ContainsFinalizer]: some finalizer of the object equals
    the given one. *)
Definition ContainsFinalizer (m : Monitor) (finalizer : string) : bool :=
  existsb (String.eqb finalizer) (Finalizers (Meta m)).

(** [controllerutil.AddFinalizer]: appended unless already there. *)
Definition AddFinalizer (m : Monitor) (finalizer : string) : Monitor :=
  if ContainsFinalizer m finalizer then m
  else with_finalizers (Finalizers (Meta m) ++ [finalizer]) m.

(** [controllerutil.RemoveFinalizer]: every occurrence is dropped, the other
    finalizers keep their order. *)
Definition RemoveFinalizer (m : Monitor) (finalizer : string) : Monitor :=
  with_finalizers
    (List.filter (fun f => negb (String.eqb f finalizer)) (Finalizers (Meta m))) m.

(** The controller reference to an Ingress: the owner link. *)
Definition owner_link (ingress : Ingress) : OwnerReference :=
  {| APIVersion := "networking.k8s.io/v1";
     Kind := "Ingress";
     OwnerName := Name (IMeta ingress);
     OwnerUID := UID (IMeta ingress);
     Controller := true;
     BlockOwnerDeletion := true |}.

(** [controllerutil.SetControllerReference(owner, controlled, scheme)] for an
    Ingress owning a Monitor.  The owner is validated against the scheme
    (its kind must be registered), which is the library's business and is
    passed in as [scheme_err]; on success the controller reference of the
    owner is put on the object.  The watcher only ever calls it on a Monitor
    it has just built, in the owner's namespace and with no owner yet, so
    the reference is the only one. *)
Definition SetControllerReference (scheme_err : option error)
    (owner : Ingress) (controlled : Monitor) : Monitor + error :=
  match scheme_err with
  | Some e => inr e
  | None =>
    inl (with_owners (OwnerReferences (Meta controlled) ++ [owner_link owner])
                     controlled)
  end.

(** ** The Upbot SDK *)

(** [upbot.StoreANewlyCreatedResourceInStorageRequest]. *)
Record CreateRequest : Type := {
  cr_Name : string;
  cr_Type : string;
  cr_Target : string;
  cr_Interval : string;
  cr_RetryCount : Z
}.

(** [upbot.UpdateTheSpecifiedResourceInStorageRequest]. *)
Record UpdateRequest : Type := {
  ur_Name : string;
  ur_Type : string;
  ur_Target : string;
  ur_Interval : string;
  ur_RetryCount : Z
}.

(** What [Execute()] of the create call hands back: the response ([None] for
    a nil response, [Some None] for a response whose [Id] is nil) and the
    error. *)
Definition CreateAnswer : Type := (option (option string) * option error)%type.

(** What [Execute()] of the delete call hands back: the status code of the
    HTTP response ([None] for a nil response) and the error. *)
Definition DeleteAnswer : Type := (option Z * option error)%type.

Definition StatusNotFound : Z := 404.

(** ** Client calls and the world they act on *)

(** One entry per call a reconcile issues on the API store or on Upbot.  The
    Upbot entries also record what the service answered. *)
Inductive Call : Type :=
| GetIngress (k : Key)
| GetMonitor (k : Key)
| CreateMonitor (m : Monitor)
| UpdateMonitor (m : Monitor)
| UpdateMonitorStatus (m : Monitor)
| DeleteMonitor (m : Monitor)
| UpbotCreate (req : CreateRequest) (ans : CreateAnswer)
| UpbotUpdate (id : string) (req : UpdateRequest) (ans : option error)
| UpbotDelete (id : string) (ans : DeleteAnswer).

(** The API store: the Ingress and the Monitor objects by namespaced name. *)
Record World : Type := {
  ingresses : gmap Key Ingress;
  monitors : gmap Key Monitor
}.

(** How the collaborators answer during one reconcile.  An [_err] field set
    to [Some e] makes the corresponding store call fail with [e] and leave
    the store as it is; [None] lets the call reach the store.  The Upbot
    fields are the service's answers, which the operator cannot predict. *)
Record Env : Type := {
  get_ingress_err : option error;
  get_monitor_err : option error;
  create_err : option error;
  update_err : option error;
  status_update_err : option error;
  delete_err : option error;
  set_owner_err : option error;
  upbot_create : CreateAnswer;
  upbot_update : option error;
  upbot_delete : DeleteAnswer;
  clock : Z
}.

(** A reconcile's result: the value it returns, the store it leaves and the
    calls it issued, oldest first. *)
Record Outcome (A : Type) : Type := {
  value : A;
  world : World;
  trace : list Call
}.
Arguments value {A} _.
Arguments world {A} _.
Arguments trace {A} _.

Definition M (A : Type) : Type := World -> Outcome A.

Definition ret {A : Type} (a : A) : M A :=
  fun w => {| value := a; world := w; trace := [] |}.

Definition bind {A B : Type} (c : M A) (k : A -> M B) : M B :=
  fun w =>
    let o1 := c w in
    let o2 := k (value o1) (world o1) in
    {| value := value o2; world := world o2; trace := trace o1 ++ trace o2 |}.

Notation "x <~ c ;; k" := (bind c (fun x => k))
  (at level 200, c at level 99, k at level 200, right associativity).

Definition set_monitors (ms : gmap Key Monitor) (w : World) : World :=
  {| ingresses := ingresses w; monitors := ms |}.

(** [r.Get(ctx, key, &ingress)]. *)
Definition Get_Ingress (env : Env) (k : Key) : M (Ingress + error) :=
  fun w =>
    {| value := match get_ingress_err env with
                | Some e => inr e
                | None => match ingresses w !! k with
                          | Some i => inl i
                          | None => inr ErrNotFound
                          end
                end;
       world := w;
       trace := [GetIngress k] |}.

(** [r.Get(ctx, key, &monitor)]. *)
Definition Get_Monitor (env : Env) (k : Key) : M (Monitor + error) :=
  fun w =>
    {| value := match get_monitor_err env with
                | Some e => inr e
                | None => match monitors w !! k with
                          | Some m => inl m
                          | None => inr ErrNotFound
                          end
                end;
       world := w;
       trace := [GetMonitor k] |}.

(** [r.Create(ctx, monitor)]. *)
Definition Create (env : Env) (m : Monitor) : M (option error) :=
  fun w =>
    match create_err env with
    | Some e => {| value := Some e; world := w; trace := [CreateMonitor m] |}
    | None =>
      match monitors w !! key_of (Meta m) with
      | Some _ => {| value := Some ErrAlreadyExists; world := w;
                     trace := [CreateMonitor m] |}
      | None => {| value := None;
                   world := set_monitors (<[key_of (Meta m) := m]> (monitors w)) w;
                   trace := [CreateMonitor m] |}
      end
    end.

(** An object the platform finalizes: a deletion has been requested for it
    and no finalizer holds it any more. *)
Definition finalized (m : Monitor) : bool :=
  negb (Time_IsZero (DeletionTimestamp (Meta m))) &&
  match Finalizers (Meta m) with
  | [] => true
  | _ :: _ => false
  end.

(** What an accepted update leaves in the store at a key: the object, or
    nothing when the update has left a deleting object without finalizers
    (the platform then removes it). *)
Definition store_update (k : Key) (m : Monitor) (ms : gmap Key Monitor)
  : gmap Key Monitor :=
  if finalized m then delete k ms else <[k := m]> ms.

(** [r.Update(ctx, monitor)]: metadata and spec are replaced, the stored
    status is kept (status is a subresource); an object with a deletion time
    that the update leaves without finalizers is removed from the store. *)
Definition Update (env : Env) (m : Monitor) : M (option error) :=
  fun w =>
    match update_err env with
    | Some e => {| value := Some e; world := w; trace := [UpdateMonitor m] |}
    | None =>
      match monitors w !! key_of (Meta m) with
      | None => {| value := Some ErrNotFound; world := w;
                   trace := [UpdateMonitor m] |}
      | Some old =>
        {| value := None;
           world := set_monitors
                      (store_update (key_of (Meta m)) (with_status (Status old) m)
                                    (monitors w)) w;
           trace := [UpdateMonitor m] |}
      end
    end.

(** [r.Status().Update(ctx, monitor)]: only the status is replaced. *)
Definition Status_Update (env : Env) (m : Monitor) : M (option error) :=
  fun w =>
    match status_update_err env with
    | Some e => {| value := Some e; world := w; trace := [UpdateMonitorStatus m] |}
    | None =>
      match monitors w !! key_of (Meta m) with
      | None => {| value := Some ErrNotFound; world := w;
                   trace := [UpdateMonitorStatus m] |}
      | Some old =>
        {| value := None;
           world := set_monitors
                      (<[key_of (Meta m) := with_status (Status m) old]> (monitors w)) w;
           trace := [UpdateMonitorStatus m] |}
      end
    end.

(** [r.Delete(ctx, monitor)]: an object that still carries finalizers is
    only stamped with a deletion time; one without is removed. *)
Definition Delete (env : Env) (m : Monitor) : M (option error) :=
  fun w =>
    match delete_err env with
    | Some e => {| value := Some e; world := w; trace := [DeleteMonitor m] |}
    | None =>
      match monitors w !! key_of (Meta m) with
      | None => {| value := Some ErrNotFound; world := w;
                   trace := [DeleteMonitor m] |}
      | Some old =>
        {| value := None;
           world :=
             set_monitors
               (match Finalizers (Meta old) with
                | [] => delete (key_of (Meta m)) (monitors w)
                | _ :: _ =>
                  if Time_IsZero (DeletionTimestamp (Meta old))
                  then <[key_of (Meta m) := with_deletion (Some (clock env)) old]>
                         (monitors w)
                  else monitors w
                end) w;
           trace := [DeleteMonitor m] |}
      end
    end.

(** The three calls of [MonitorManagementAPI]; the answer is the
    service's. *)
Definition Upbot_Create (env : Env) (req : CreateRequest) : M CreateAnswer :=
  fun w => {| value := upbot_create env; world := w;
              trace := [UpbotCreate req (upbot_create env)] |}.

Definition Upbot_Update (env : Env) (id : string) (req : UpdateRequest)
  : M (option error) :=
  fun w => {| value := upbot_update env; world := w;
              trace := [UpbotUpdate id req (upbot_update env)] |}.

Definition Upbot_Delete (env : Env) (id : string) : M DeleteAnswer :=
  fun w => {| value := upbot_delete env; world := w;
              trace := [UpbotDelete id (upbot_delete env)] |}.

(** ** monitor_controller.go *)

Module MonitorController.

Definition monitorFinalizer : string := "monitoring.upbot.app/finalizer".

(** [handleUpdate]: a blind push of the whole spec under the stored
    identifier.  A failure is logged (with one more log line when the
    error is a [*upbot.GenericOpenAPIError]) and returned; the status is
    not written on either branch. *)
Definition handleUpdate (env : Env) (monitor : Monitor) : M (option error) :=
  let updateRequest :=
    {| ur_Name := Name (Meta monitor);
       ur_Type := Type_ (Spec monitor);
       ur_Target := Target (Spec monitor);
       ur_Interval := Interval (Spec monitor);
       ur_RetryCount := 0 |} in
  err <~ Upbot_Update env (ExternalID (Status monitor)) updateRequest ;;
  match err with
  | Some e => ret (Some e)
  | None => ret None
  end.

(** [handleCreateOrUpdate]. *)
Definition handleCreateOrUpdate (env : Env) (monitor : Monitor)
  : M (option error) :=
  if negb (String.eqb (ExternalID (Status monitor)) "") then
    handleUpdate env monitor
  else
    let newMonitor :=
      {| cr_Name := Name (Meta monitor);
         cr_Type := Type_ (Spec monitor);
         cr_Target := Target (Spec monitor);
         cr_Interval := Interval (Spec monitor);
         cr_RetryCount := 0 |} in
    ans <~ Upbot_Create env newMonitor ;;
    match ans with
    | (_, Some e) => ret (Some e)
    | (Some (Some id), None) =>
      let monitor := with_status {| ExternalID := id |} monitor in
      err <~ Status_Update env monitor ;;
      match err with
      | Some e => ret (Some e)
      | None => ret None
      end
    | (_, None) => ret None
    end.

(** [handleDeletion]. *)
Definition handleDeletion (env : Env) (monitor : Monitor) : M (option error) :=
  if negb (ContainsFinalizer monitor monitorFinalizer) then ret None
  else
    failed <~
      (if negb (String.eqb (ExternalID (Status monitor)) "") then
         ans <~ Upbot_Delete env (ExternalID (Status monitor)) ;;
         match ans with
         | (httpResp, Some e) =>
           match httpResp with
           | Some code =>
             if Z.eqb code StatusNotFound then ret None else ret (Some e)
           | None => ret (Some e)
           end
         | (_, None) => ret None
         end
       else ret None) ;;
    match failed with
    | Some e => ret (Some e)
    | None =>
      let monitor := RemoveFinalizer monitor monitorFinalizer in
      err <~ Update env monitor ;;
      match err with
      | Some e => ret (Some e)
      | None => ret None
      end
    end.

(** [Reconcile].  The [ctrl.Result] it returns is the zero value on every
    path, so only the error is kept. *)
Definition Reconcile (env : Env) (req : Key) : M (option error) :=
  got <~ Get_Monitor env req ;;
  match got with
  | inr err => ret (IgnoreNotFound err)
  | inl monitor =>
    if negb (Time_IsZero (DeletionTimestamp (Meta monitor))) then
      handleDeletion env monitor
    else if negb (ContainsFinalizer monitor monitorFinalizer) then
      let monitor := AddFinalizer monitor monitorFinalizer in
      err <~ Update env monitor ;;
      match err with
      | Some e => ret (Some e)
      | None => ret None
      end
    else
      handleCreateOrUpdate env monitor
  end.

End MonitorController.

(** ** ingress_watcher_controller.go *)

Module IngressWatcher.

(** The reconciler's configuration: [Interval] is the process-wide default
    interval (the [--ingress-watcher-interval] flag). *)
Record IngressWatcherReconciler : Type := {
  r_Interval : string
}.

(** [getTargetFromIngress]. *)
Definition getTargetFromIngress (ingress : Ingress) : string + error :=
  match Rules ingress with
  | [] => inr (ErrFmt "no rules found in Ingress")
  | rule :: _ =>
    if String.eqb (Host rule) "" then
      inr (ErrFmt "no host found in Ingress rule")
    else
      let scheme :=
        if Nat.eqb (length (TLS ingress)) 0 then "http" else "https" in
      inl (scheme +:+ "://" +:+ Host rule)
  end.

(** [createMonitorFromIngress]. *)
Definition createMonitorFromIngress (r : IngressWatcherReconciler)
    (env : Env) (ingress : Ingress) : M (option error) :=
  match getTargetFromIngress ingress with
  | inr err => ret (Some err)
  | inl target =>
    let interval :=
      if String.eqb (r_Interval r) "" then "30" else r_Interval r in
    let monitor :=
      {| Meta := {| Name := Name (IMeta ingress);
                    Namespace := Namespace (IMeta ingress);
                    UID := "";
                    Labels := {[ "upbot.app/source" := "ingress-watcher" ]};
                    Annotations := {[ "upbot.app/auto-generated" := "true" ]};
                    Finalizers := [];
                    DeletionTimestamp := None;
                    OwnerReferences := [] |};
         Spec := {| Type_ := "http"; Target := target; Interval := interval |};
         Status := {| ExternalID := "" |} |} in
    match SetControllerReference (set_owner_err env) ingress monitor with
    | inr err => ret (Some err)
    | inl monitor =>
      err <~ Create env monitor ;;
      match err with
      | Some e => ret (Some e)
      | None => ret None
      end
    end
  end.

(** [Reconcile]. *)
Definition Reconcile (r : IngressWatcherReconciler) (env : Env) (req : Key)
  : M (option error) :=
  got <~ Get_Ingress env req ;;
  match got with
  | inr err =>
    if IsNotFound (Some err) then ret None else ret (Some err)
  | inl ingress =>
    existing <~ Get_Monitor env req ;;
    match existing with
    | inr err =>
      if negb (IsNotFound (Some err)) then ret (Some err)
      else createMonitorFromIngress r env ingress
    | inl _ => ret None
    end
  end.

End IngressWatcher.

(** ** The annotation-aware revision of the watcher

    The text of this revision of [ingress_watcher_controller.go] follows the
    release guide in [docs/VERSION_MANAGEMENT.md]; it is the one the
    annotations guide [docs/INGRESS_WATCHER_ANNOTATIONS.md] describes. *)

Module AnnotatedWatcher.

Import IngressWatcher.

Definition slash : Ascii.ascii := Ascii.ascii_of_nat 47.

(** [s[i] == '/'] on the bytes of a Go string. *)
Definition byte_is_slash (s : string) (i : nat) : bool :=
  match String.get i s with
  | Some c => Ascii.eqb c slash
  | None => false
  end.

(** The clean-up of the [upbot.app/path] value inside
    [getTargetFromIngress]; the value is not empty there. *)
Definition cleanPath (customPath : string) : string :=
  let customPath :=
    if negb (byte_is_slash customPath 0) then "/" +:+ customPath
    else customPath in
  if Nat.ltb 1 (String.length customPath)
     && byte_is_slash customPath (String.length customPath - 1)
  then String.substring 0 (String.length customPath - 1) customPath
  else customPath.

(** [getTargetFromIngress]. *)
Definition getTargetFromIngress (ingress : Ingress) : string + error :=
  match Rules ingress with
  | [] => inr (ErrFmt "no rules found in Ingress")
  | rule :: _ =>
    if String.eqb (Host rule) "" then
      inr (ErrFmt "no host found in Ingress rule")
    else
      let scheme :=
        if Nat.eqb (length (TLS ingress)) 0 then "http" else "https" in
      let target := scheme +:+ "://" +:+ Host rule in
      match Annotations (IMeta ingress) !! "upbot.app/path" with
      | Some customPath =>
        if negb (String.eqb customPath "") then
          inl (target +:+ cleanPath customPath)
        else inl target
      | None => inl target
      end
  end.

(** The interval both [createMonitorFromIngress] and
    [updateMonitorIfNeeded] compute: the [upbot.app/interval] annotation
    when present and not empty, else the reconciler's default, else
    ["30"]. *)
Definition expectedInterval (r : IngressWatcherReconciler)
    (ingress : Ingress) : string :=
  let interval := r_Interval r in
  match Annotations (IMeta ingress) !! "upbot.app/interval" with
  | Some customInterval =>
    if negb (String.eqb customInterval "") then customInterval
    else if String.eqb interval "" then "30" else interval
  | None => if String.eqb interval "" then "30" else interval
  end.

(** [createMonitorFromIngress]. *)
Definition createMonitorFromIngress (r : IngressWatcherReconciler)
    (env : Env) (ingress : Ingress) : M (option error) :=
  match getTargetFromIngress ingress with
  | inr err => ret (Some err)
  | inl target =>
    let interval := expectedInterval r ingress in
    let monitor :=
      {| Meta := {| Name := Name (IMeta ingress);
                    Namespace := Namespace (IMeta ingress);
                    UID := "";
                    Labels :=
                      {[ "upbot.app/source" := "ingress-watcher";
                         "upbot.app/target-type" := "http" ]};
                    Annotations :=
                      {[ "upbot.app/auto-generated" := "true";
                         "upbot.app/source-ingress" :=
                           Namespace (IMeta ingress) +:+ "/" +:+
                           Name (IMeta ingress) ]};
                    Finalizers := [];
                    DeletionTimestamp := None;
                    OwnerReferences := [] |};
         Spec := {| Type_ := "http"; Target := target; Interval := interval |};
         Status := {| ExternalID := "" |} |} in
    match SetControllerReference (set_owner_err env) ingress monitor with
    | inr err => ret (Some err)
    | inl monitor =>
      err <~ Create env monitor ;;
      match err with
      | Some e => ret (Some e)
      | None => ret None
      end
    end
  end.

(** [updateMonitorIfNeeded]. *)
Definition updateMonitorIfNeeded (r : IngressWatcherReconciler) (env : Env)
    (monitor : Monitor) (ingress : Ingress) : M (option error) :=
  if negb (String.eqb (map_index (Labels (Meta monitor)) "upbot.app/source")
                      "ingress-watcher")
  then ret None
  else
    let needsUpdate := false in
    match getTargetFromIngress ingress with
    | inr err => ret (Some err)
    | inl expectedTarget =>
      let expected := expectedInterval r ingress in
      let '(monitor, needsUpdate) :=
        if negb (String.eqb (Target (Spec monitor)) expectedTarget)
        then (with_spec {| Type_ := Type_ (Spec monitor);
                           Target := expectedTarget;
                           Interval := Interval (Spec monitor) |} monitor,
              true)
        else (monitor, needsUpdate) in
      let '(monitor, needsUpdate) :=
        if negb (String.eqb (Interval (Spec monitor)) expected)
        then (with_spec {| Type_ := Type_ (Spec monitor);
                           Target := Target (Spec monitor);
                           Interval := expected |} monitor,
              true)
        else (monitor, needsUpdate) in
      let '(monitor, needsUpdate) :=
        if negb (String.eqb (Type_ (Spec monitor)) "http")
        then (with_spec {| Type_ := "http";
                           Target := Target (Spec monitor);
                           Interval := Interval (Spec monitor) |} monitor,
              true)
        else (monitor, needsUpdate) in
      if needsUpdate then
        err <~ Update env monitor ;;
        match err with
        | Some e => ret (Some e)
        | None => ret None
        end
      else ret None
    end.

(** [handleIngressDeletion]: ownership is the label and the source
    annotation. *)
Definition handleIngressDeletion (env : Env) (namespacedName : Key)
  : M (option error) :=
  got <~ Get_Monitor env namespacedName ;;
  match got with
  | inr err =>
    if IsNotFound (Some err) then ret None else ret (Some err)
  | inl monitor =>
    if negb (String.eqb (map_index (Labels (Meta monitor)) "upbot.app/source")
                        "ingress-watcher")
    then ret None
    else
      let expectedSourceAnnotation :=
        fst namespacedName +:+ "/" +:+ snd namespacedName in
      if negb (String.eqb
                 (map_index (Annotations (Meta monitor))
                            "upbot.app/source-ingress")
                 expectedSourceAnnotation)
      then ret None
      else
        err <~ Delete env monitor ;;
        match err with
        | Some e => ret (Some e)
        | None => ret None
        end
  end.

(** [handleMonitorCleanupForDisabledIngress]: ownership is the label
    alone. *)
Definition handleMonitorCleanupForDisabledIngress (env : Env)
    (namespacedName : Key) : M (option error) :=
  got <~ Get_Monitor env namespacedName ;;
  match got with
  | inr err =>
    if IsNotFound (Some err) then ret None else ret (Some err)
  | inl monitor =>
    if negb (String.eqb (map_index (Labels (Meta monitor)) "upbot.app/source")
                        "ingress-watcher")
    then ret None
    else
      err <~ Delete env monitor ;;
      match err with
      | Some e => ret (Some e)
      | None => ret None
      end
  end.

(** The test on the [upbot.app/monitor] annotation in [Reconcile]. *)
Definition monitoringDisabled (ingress : Ingress) : bool :=
  match Annotations (IMeta ingress) !! "upbot.app/monitor" with
  | Some disabled =>
    String.eqb disabled "false" || String.eqb disabled "disabled"
  | None => false
  end.

(** [Reconcile]. *)
Definition Reconcile (r : IngressWatcherReconciler) (env : Env) (req : Key)
  : M (option error) :=
  got <~ Get_Ingress env req ;;
  match got with
  | inr err =>
    if IsNotFound (Some err) then handleIngressDeletion env req
    else ret (Some err)
  | inl ingress =>
    if monitoringDisabled ingress then
      handleMonitorCleanupForDisabledIngress env req
    else
      existing <~ Get_Monitor env req ;;
      match existing with
      | inr err =>
        if negb (IsNotFound (Some err)) then ret (Some err)
        else createMonitorFromIngress r env ingress
      | inl existingMonitor =>
        updateMonitorIfNeeded r env existingMonitor ingress
      end
  end.

End AnnotatedWatcher.

(** ** Notions the statements use *)

(** The calls that change the API store. *)
Definition is_write (c : Call) : bool :=
  match c with
  | CreateMonitor _ | UpdateMonitor _ | UpdateMonitorStatus _
  | DeleteMonitor _ => true
  | _ => false
  end.

Definition is_upbot_create (c : Call) : bool :=
  match c with
  | UpbotCreate _ _ => true
  | _ => false
  end.

Definition is_upbot_call (c : Call) : bool :=
  match c with
  | UpbotCreate _ _ | UpbotUpdate _ _ _ | UpbotDelete _ _ => true
  | _ => false
  end.

(** The records a trace has registered with Upbot: the requests of the
    create calls the service answered without an error. *)
Fixpoint registered (t : list Call) : list CreateRequest :=
  match t with
  | [] => []
  | UpbotCreate req (_, None) :: t' => req :: registered t'
  | _ :: t' => registered t'
  end.

(** The create request [handleCreateOrUpdate] builds for a Monitor. *)
Definition create_request (m : Monitor) : CreateRequest :=
  {| cr_Name := Name (Meta m);
     cr_Type := Type_ (Spec m);
     cr_Target := Target (Spec m);
     cr_Interval := Interval (Spec m);
     cr_RetryCount := 0 |}.

(** The update request [handleUpdate] builds for a Monitor. *)
Definition update_request (m : Monitor) : UpdateRequest :=
  {| ur_Name := Name (Meta m);
     ur_Type := Type_ (Spec m);
     ur_Target := Target (Spec m);
     ur_Interval := Interval (Spec m);
     ur_RetryCount := 0 |}.

(** One round of a run of the Monitor reconciler on a key: the
    collaborators' answers for the reconcile, and what the other writers of
    the store (users, the watcher, the platform) do to it afterwards. *)
Record Round : Type := {
  answers : Env;
  others : World -> World
}.

(** The reconciles of a run, each with the store it started from. *)
Fixpoint run (rounds : list Round) (req : Key) (w : World)
  : list (World * Outcome (option error)) :=
  match rounds with
  | [] => []
  | r :: rs =>
    let o := MonitorController.Reconcile (answers r) req w in
    (w, o) :: run rs req (others r (world o))
  end.

(** Collaborators that never fail: the store accepts every call and Upbot
    answers every call with success, handing out the identifier [id]. *)
Definition quiet (id : string) : Env :=
  {| get_ingress_err := None;
     get_monitor_err := None;
     create_err := None;
     update_err := None;
     status_update_err := None;
     delete_err := None;
     set_owner_err := None;
     upbot_create := (Some (Some id), None);
     upbot_update := None;
     upbot_delete := (Some 200, None);
     clock := 1 |}.

(** The Monitors a trace asked the store to create, and to delete. *)
Fixpoint created (t : list Call) : list Monitor :=
  match t with
  | [] => []
  | CreateMonitor m :: t' => m :: created t'
  | _ :: t' => created t'
  end.

Fixpoint deleted (t : list Call) : list Monitor :=
  match t with
  | [] => []
  | DeleteMonitor m :: t' => m :: deleted t'
  | _ :: t' => deleted t'
  end.

(** A Monitor is managed when it carries the watcher's ownership label. *)
Definition managed (m : Monitor) : bool :=
  String.eqb (map_index (Labels (Meta m)) "upbot.app/source") "ingress-watcher".

(** ** The specification's wording of the derived state

    These follow the sentences of the design document, not the code; the
    statements below compare the code with them. *)

(** "interval: per-route directive if non-empty, else a configured process
    default, else the literal 30"; an unset default is the empty string. *)
Definition spec_interval (directive : option string) (default : string)
  : string :=
  match directive with
  | Some d =>
    if String.eqb d "" then (if String.eqb default "" then "30" else default)
    else d
  | None => if String.eqb default "" then "30" else default
  end.

(** One trailing ["/"] dropped, if there is one. *)
Fixpoint strip_trailing_slash (s : string) : string :=
  match s with
  | EmptyString => EmptyString
  | String c EmptyString =>
    if Ascii.eqb c (Ascii.ascii_of_nat 47) then EmptyString else s
  | String c rest => String c (strip_trailing_slash rest)
  end.

(** "path: optional per-route directive; if present, prefix with / if
    missing a leading slash; strip one trailing / unless the path is exactly
    /"; "path omitted if absent". *)
Definition spec_path (directive : option string) : string :=
  match directive with
  | None => ""
  | Some p =>
    let p :=
      match p with
      | String c _ =>
        if Ascii.eqb c (Ascii.ascii_of_nat 47) then p else "/" +:+ p
      | EmptyString => "/" +:+ p
      end in
    if String.eqb p "/" then p else strip_trailing_slash p
  end.

(** "scheme = https iff the route declares at least one TLS entry, else
    http"; "target = scheme://host[path]". *)
Definition spec_target (tls : list IngressTLS) (host : string)
    (directive : option string) : string :=
  (match tls with [] => "http" | _ :: _ => "https" end)
  +:+ "://" +:+ host +:+ spec_path directive.

(** "enabled = false iff a per-route directive equals false or disabled". *)
Definition spec_disabled (directive : option string) : bool :=
  match directive with
  | Some d => String.eqb d "false" || String.eqb d "disabled"
  | None => false
  end.

(** Sample objects. *)

Definition demo_key : Key := ("default", "my-app").

Definition demo_meta (labels annotations : gmap string string)
    (finalizers : list string) (deletion : option Z) : ObjectMeta :=
  {| Name := "my-app"; Namespace := "default"; UID := "uid-1";
     Labels := labels; Annotations := annotations;
     Finalizers := finalizers; DeletionTimestamp := deletion;
     OwnerReferences := [] |}.

(** A Monitor at [demo_key] as the watcher would have left it, with the
    given finalizers, deletion stamp and external identifier. *)
Definition demo_monitor (finalizers : list string) (deletion : option Z)
    (externalID : string) : Monitor :=
  {| Meta := demo_meta {[ "upbot.app/source" := "ingress-watcher" ]}
                       {[ "upbot.app/auto-generated" := "true" ]}
                       finalizers deletion;
     Spec := {| Type_ := "http"; Target := "http://myapp.example.com";
                Interval := "30" |};
     Status := {| ExternalID := externalID |} |}.

(** The Ingress [my-app] of the annotations guide: one rule for
    [myapp.example.com], the given annotations and TLS entries. *)
Definition demo_ingress (annotations : gmap string string)
    (tls : list IngressTLS) : Ingress :=
  {| IMeta := demo_meta ∅ annotations [] None;
     Rules := [ {| Host := "myapp.example.com" |} ];
     TLS := tls |}.

Definition world_of (i : option Ingress) (m : option Monitor) : World :=
  {| ingresses := match i with Some x => {[ demo_key := x ]} | None => ∅ end;
     monitors := match m with Some x => {[ demo_key := x ]} | None => ∅ end |}.

(** Collaborators that differ from given ones in what Upbot answers. *)
Definition with_upbot_create (ans : CreateAnswer) (env : Env) : Env :=
  {| get_ingress_err := get_ingress_err env;
     get_monitor_err := get_monitor_err env;
     create_err := create_err env;
     update_err := update_err env;
     status_update_err := status_update_err env;
     delete_err := delete_err env;
     set_owner_err := set_owner_err env;
     upbot_create := ans;
     upbot_update := upbot_update env;
     upbot_delete := upbot_delete env;
     clock := clock env |}.

Definition with_upbot_update (ans : option error) (env : Env) : Env :=
  {| get_ingress_err := get_ingress_err env;
     get_monitor_err := get_monitor_err env;
     create_err := create_err env;
     update_err := update_err env;
     status_update_err := status_update_err env;
     delete_err := delete_err env;
     set_owner_err := set_owner_err env;
     upbot_create := upbot_create env;
     upbot_update := ans;
     upbot_delete := upbot_delete env;
     clock := clock env |}.

Definition with_upbot_delete (ans : DeleteAnswer) (env : Env) : Env :=
  {| get_ingress_err := get_ingress_err env;
     get_monitor_err := get_monitor_err env;
     create_err := create_err env;
     update_err := update_err env;
     status_update_err := status_update_err env;
     delete_err := delete_err env;
     set_owner_err := set_owner_err env;
     upbot_create := upbot_create env;
     upbot_update := upbot_update env;
     upbot_delete := ans;
     clock := clock env |}.

(** Upbot answering 404 to a delete: the record is already gone. *)
Definition gone_env : Env :=
  with_upbot_delete (Some StatusNotFound, Some (ErrApi true "404 Not Found"))
                    (quiet "").

(** Upbot refusing a create, and refusing an update. *)
Definition create_down_env : Env :=
  with_upbot_create (None, Some (ErrApi true "503 Service Unavailable")) (quiet "").

Definition update_down_env : Env :=
  with_upbot_update (Some (ErrApi true "404 Not Found")) (quiet "").

(** Upbot accepting a create and answering without an identifier. *)
Definition no_id_env : Env := with_upbot_create (Some None, None) (quiet "").

(** A Monitor the watcher has just created, and the same Monitor once the
    reconciler has attached its marker. *)
Definition fresh_monitor : Monitor := demo_monitor [] None "".

Definition armed_monitor : Monitor :=
  demo_monitor [MonitorController.monitorFinalizer] None "".

Definition synced_monitor : Monitor :=
  demo_monitor [MonitorController.monitorFinalizer] None "ext-1".

(** The store answering NotFound to a delete: somebody else removed the
    object after it was read. *)
Definition delete_raced_env : Env :=
  {| get_ingress_err := None;
     get_monitor_err := None;
     create_err := None;
     update_err := None;
     status_update_err := None;
     delete_err := Some ErrNotFound;
     set_owner_err := None;
     upbot_create := (Some (Some ""), None);
     upbot_update := None;
     upbot_delete := (Some 200, None);
     clock := 1 |}.

(** A watcher with no configured default interval, and one configured with
    the default ["30"]. *)
Definition plain_watcher : IngressWatcher.IngressWatcherReconciler :=
  {| IngressWatcher.r_Interval := "" |}.

Definition default_watcher : IngressWatcher.IngressWatcherReconciler :=
  {| IngressWatcher.r_Interval := "30" |}.

(** The Ingress [my-app] with no directive, and with each of the directives
    of the annotations guide. *)
Definition plain_ingress : Ingress := demo_ingress ∅ [].

(** An Ingress with no rule at all. *)
Definition ruleless_ingress : Ingress :=
  {| IMeta := demo_meta ∅ ∅ [] None; Rules := []; TLS := [] |}.

Definition health_ingress : Ingress :=
  demo_ingress {[ "upbot.app/path" := "health" ]} [].

Definition empty_path_ingress : Ingress :=
  demo_ingress {[ "upbot.app/path" := "" ]} [].

Definition fast_ingress : Ingress :=
  demo_ingress {[ "upbot.app/interval" := "10" ]} [].

Definition disabled_ingress : Ingress :=
  demo_ingress {[ "upbot.app/monitor" := "false" ]} [].

(** The Monitor the annotation-aware watcher creates for [my-app]: both
    labels and both annotations. *)
Definition owned_monitor : Monitor :=
  {| Meta := demo_meta {[ "upbot.app/source" := "ingress-watcher";
                          "upbot.app/target-type" := "http" ]}
                       {[ "upbot.app/auto-generated" := "true";
                          "upbot.app/source-ingress" := "default/my-app" ]}
                       [] None;
     Spec := {| Type_ := "http"; Target := "http://myapp.example.com";
                Interval := "30" |};
     Status := {| ExternalID := "" |} |}.

(** The store refusing the status write, Upbot answering every call. *)
Definition status_down_env : Env :=
  {| get_ingress_err := None; get_monitor_err := None; create_err := None;
     update_err := None; status_update_err := Some (ErrStore "conflict");
     delete_err := None; set_owner_err := None;
     upbot_create := (Some (Some "ext-1"), None); upbot_update := None;
     upbot_delete := (Some 200, None); clock := 1 |}.

(** The store timing out on the read of the Ingress. *)
Definition ingress_down_env : Env :=
  {| get_ingress_err := Some (ErrStore "timeout"); get_monitor_err := None;
     create_err := None; update_err := None; status_update_err := None;
     delete_err := None; set_owner_err := None;
     upbot_create := (None, None); upbot_update := None;
     upbot_delete := (None, None); clock := 1 |}.

(** A round with collaborators that never fail and no other writer. *)
Definition steady (id : string) : Round :=
  {| answers := quiet id; others := fun w => w |}.

(** Two Monitors that differ at most in their finalizers and in their
    status. *)
Definition same_but_marker_and_status (m m' : Monitor) : Prop :=
  Name (Meta m') = Name (Meta m) ∧
  Namespace (Meta m') = Namespace (Meta m) ∧
  UID (Meta m') = UID (Meta m) ∧
  Labels (Meta m') = Labels (Meta m) ∧
  Annotations (Meta m') = Annotations (Meta m) ∧
  DeletionTimestamp (Meta m') = DeletionTimestamp (Meta m) ∧
  OwnerReferences (Meta m') = OwnerReferences (Meta m) ∧
  Spec m' = Spec m.

(** What a reconcile of the key [req] may do to the store: the Ingresses
    and the Monitors at the other keys stay; no Monitor appears at [req]; a
    Monitor at [req] either stays there, changed at most in its finalizers
    and status, or is gone, and then it was on its way out with the
    reconciler's marker as the only finalizer left. *)
Definition touches_only (req : Key) (w w' : World) : Prop :=
  ingresses w' = ingresses w ∧
  (∀ k, k ≠ req → monitors w' !! k = monitors w !! k) ∧
  match monitors w !! req with
  | None => monitors w' !! req = None
  | Some m =>
    (∃ m', monitors w' !! req = Some m' ∧ same_but_marker_and_status m m') ∨
    (monitors w' !! req = None ∧
     Time_IsZero (DeletionTimestamp (Meta m)) = false ∧
     ContainsFinalizer m MonitorController.monitorFinalizer = true ∧
     Finalizers (Meta (RemoveFinalizer m MonitorController.monitorFinalizer)) = [])
  end.

(** The calls to Upbot that change what the service monitors. *)
Definition is_upbot_sync (c : Call) : bool :=
  match c with
  | UpbotCreate _ _ | UpbotUpdate _ _ _ => true
  | _ => false
  end.

(** The Ingress removed from the store. *)
Definition without_ingress (req : Key) (w : World) : World :=
  {| ingresses := delete req (ingresses w); monitors := monitors w |}.

(** * Properties *)

(** ** Finalizer bookkeeping *)

Lemma existsb_eqb_filter (f : string) (l : list string) :
  existsb (String.eqb f) (List.filter (fun g => negb (String.eqb g f)) l) = false.
Proof.
  induction l as [|g l IH]; simpl; [reflexivity|].
  destruct (String.eqb_spec g f) as [->|Hne]; simpl; [exact IH|].
  rewrite IH, orb_false_r.
  destruct (String.eqb_spec f g) as [->|]; [contradiction|reflexivity].
Qed.

Lemma ContainsFinalizer_Remove (m : Monitor) (f : string) :
  ContainsFinalizer (RemoveFinalizer m f) f = false.
Proof. unfold ContainsFinalizer, RemoveFinalizer. simpl. apply existsb_eqb_filter. Qed.

Lemma ContainsFinalizer_Add (m : Monitor) (f : string) :
  ContainsFinalizer (AddFinalizer m f) f = true.
Proof.
  unfold AddFinalizer. destruct (ContainsFinalizer m f) eqn:E; [exact E|].
  unfold ContainsFinalizer. simpl. rewrite existsb_app. simpl.
  rewrite String.eqb_refl. rewrite orb_true_r. reflexivity.
Qed.

Lemma key_of_Remove (m : Monitor) (f : string) :
  key_of (Meta (RemoveFinalizer m f)) = key_of (Meta m).
Proof. reflexivity. Qed.

Lemma key_of_Add (m : Monitor) (f : string) :
  key_of (Meta (AddFinalizer m f)) = key_of (Meta m).
Proof. unfold AddFinalizer. destruct (ContainsFinalizer m f); reflexivity. Qed.

Lemma Deletion_Add (m : Monitor) (f : string) :
  DeletionTimestamp (Meta (AddFinalizer m f)) = DeletionTimestamp (Meta m).
Proof. unfold AddFinalizer. destruct (ContainsFinalizer m f); reflexivity. Qed.

Lemma with_status_Add (m : Monitor) (f : string) :
  with_status (Status m) (AddFinalizer m f) = AddFinalizer m f.
Proof.
  unfold AddFinalizer. destruct (ContainsFinalizer m f); destruct m; reflexivity.
Qed.

(** ** The store after an update *)

Lemma store_update_live (k : Key) (m : Monitor) (ms : gmap Key Monitor) :
  Time_IsZero (DeletionTimestamp (Meta m)) = true →
  store_update k m ms = <[k := m]> ms.
Proof. intros H. unfold store_update, finalized. rewrite H. reflexivity. Qed.

Lemma lookup_store_update (k : Key) (m : Monitor) (ms : gmap Key Monitor) :
  store_update k m ms !! k = if finalized m then None else Some m.
Proof.
  unfold store_update. destruct (finalized m).
  - apply lookup_delete_eq.
  - apply lookup_insert_eq.
Qed.

Lemma lookup_store_update_ne (k k' : Key) (m : Monitor) (ms : gmap Key Monitor) :
  k ≠ k' → store_update k m ms !! k' = ms !! k'.
Proof.
  intros Hne. unfold store_update. destruct (finalized m).
  - apply lookup_delete_ne. exact Hne.
  - apply lookup_insert_ne. exact Hne.
Qed.

(** A deleting object is finalized exactly when it has no finalizer left. *)
Lemma finalized_deleting (m : Monitor) :
  Time_IsZero (DeletionTimestamp (Meta m)) = false →
  finalized m = match Finalizers (Meta m) with [] => true | _ :: _ => false end.
Proof. intros H. unfold finalized. rewrite H. reflexivity. Qed.

(** ** Running a reconcile symbolically *)

(** The monad and the client calls unfold to records; the projections of a
    record then compute, and nothing of [gmap] is unfolded. *)
Ltac unfold_calls :=
  unfold bind, ret, Get_Ingress, Get_Monitor, Create, Update, Status_Update,
    Delete, Upbot_Create, Upbot_Update, Upbot_Delete, set_monitors in *.

Ltac reduce_calls :=
  cbn [value world trace app negb andb orb fst snd existsb is_write
       is_upbot_create is_upbot_call registered IgnoreNotFound IsNotFound
       monitors ingresses] in *.

(** Rewrite with the equations in the context whose left-hand side is being
    inspected by the goal. *)
Ltac use_equations :=
  repeat match goal with
  | H : ?x = _ |- context [match ?x with _ => _ end] => rewrite H
  | H : ?x = _ |- context [if ?x then _ else _] => rewrite H
  | H : ?x = _ |- context [negb ?x] => rewrite H
  end.

Ltac crunch := repeat (use_equations; reduce_calls).

Lemma eqb_empty_false (s : string) : s ≠ ""%string → String.eqb s "" = false.
Proof. intros H. destruct (String.eqb_spec s ""); [contradiction|reflexivity]. Qed.

Lemma eqb_empty_true (s : string) : s = ""%string → String.eqb s "" = true.
Proof. intros ->. reflexivity. Qed.

(** ** Deletion (C4) *)

Section Deletion.

Import MonitorController.

Variables (env : Env) (req : Key) (w : World) (m : Monitor).
Hypothesis Hget : get_monitor_err env = None.
Hypothesis Hm : monitors w !! req = Some m.
Hypothesis Hkey : key_of (Meta m) = req.
Hypothesis Hdel : Time_IsZero (DeletionTimestamp (Meta m)) = false.

Lemma Reconcile_deleting :
  Reconcile env req w =
  bind (Get_Monitor env req) (fun _ => handleDeletion env m) w.
Proof. unfold Reconcile. unfold_calls. crunch. reflexivity. Qed.

(** Without the marker nothing is called and nothing is written. *)
Lemma deletion_without_marker :
  ContainsFinalizer m monitorFinalizer = false →
  Reconcile env req w = {| value := None; world := w; trace := [GetMonitor req] |}.
Proof.
  intros Hfin. rewrite Reconcile_deleting. unfold handleDeletion.
  unfold_calls. crunch. reflexivity.
Qed.

(** The tail of [handleDeletion]: the marker is dropped and the object
    written back. *)
Lemma update_cleared :
  Update env (RemoveFinalizer m monitorFinalizer) w =
  {| value := update_err env;
     world := match update_err env with
              | Some _ => w
              | None =>
                set_monitors
                  (store_update req (RemoveFinalizer m monitorFinalizer)
                                (monitors w)) w
              end;
     trace := [UpdateMonitor (RemoveFinalizer m monitorFinalizer)] |}.
Proof.
  unfold Update.
  destruct (update_err env) as [e|]; [reflexivity|].
  rewrite key_of_Remove, Hkey, Hm. reflexivity.
Qed.

(** C4.  A Monitor with a deletion request, as read from the store.  Without
    the marker the reconcile is a no-op.  With it: when [externalID] is set
    the external delete is called, and a failure of that call other than a
    404 answer is returned with the store untouched (the marker stays);
    otherwise (no [externalID], a delete that succeeded, or a delete that
    answered 404) the Monitor without the marker is written back with
    [Update], whose result is the reconcile's: when the store takes the
    write, the Monitor is gone from the store if no other finalizer holds
    it, and else is stored without the marker. *)
Theorem deletion_handling :
  let o := Reconcile env req w in
  let id := ExternalID (Status m) in
  let cleared := RemoveFinalizer m monitorFinalizer in
  let removed_after (calls : list Call) :=
    trace o = GetMonitor req :: calls ++ [UpdateMonitor cleared] ∧
    value o = update_err env ∧
    (update_err env = None →
       monitors (world o) !! req =
         match Finalizers (Meta cleared) with
         | [] => None
         | _ :: _ => Some cleared
         end ∧
       ContainsFinalizer cleared monitorFinalizer = false) ∧
    (update_err env ≠ None → world o = w) in
  (ContainsFinalizer m monitorFinalizer = false →
     trace o = [GetMonitor req] ∧ value o = None ∧ world o = w) ∧
  (ContainsFinalizer m monitorFinalizer = true →
     (id = ""%string → removed_after []) ∧
     (id ≠ ""%string →
        (∀ resp, upbot_delete env = (resp, None) →
           removed_after [UpbotDelete id (upbot_delete env)]) ∧
        (∀ e, upbot_delete env = (Some StatusNotFound, Some e) →
           removed_after [UpbotDelete id (upbot_delete env)]) ∧
        (∀ resp e, upbot_delete env = (resp, Some e) →
           resp ≠ Some StatusNotFound →
           trace o = [GetMonitor req; UpbotDelete id (upbot_delete env)] ∧
           value o = Some e ∧ world o = w ∧
           monitors (world o) !! req = Some m))).
Proof.
  cbv zeta. split.
  { intros Hfin. rewrite (deletion_without_marker Hfin). auto. }
  intros Hfin.
  assert (Htail : ∀ calls,
    Reconcile env req w =
      {| value := update_err env;
         world := match update_err env with
                  | Some _ => w
                  | None => set_monitors
                      (store_update req (RemoveFinalizer m monitorFinalizer)
                                    (monitors w)) w
                  end;
         trace := GetMonitor req :: calls ++
                  [UpdateMonitor (RemoveFinalizer m monitorFinalizer)] |} →
    trace (Reconcile env req w) =
      GetMonitor req :: calls ++ [UpdateMonitor (RemoveFinalizer m monitorFinalizer)] ∧
    value (Reconcile env req w) = update_err env ∧
    (update_err env = None →
       monitors (world (Reconcile env req w)) !! req =
         match Finalizers (Meta (RemoveFinalizer m monitorFinalizer)) with
         | [] => None
         | _ :: _ => Some (RemoveFinalizer m monitorFinalizer)
         end ∧
       ContainsFinalizer (RemoveFinalizer m monitorFinalizer) monitorFinalizer = false) ∧
    (update_err env ≠ None → world (Reconcile env req w) = w)).
  { intros calls ->. cbn [trace value world]. repeat split.
    - rewrite H. cbn [monitors set_monitors].
      rewrite lookup_store_update,
        (finalized_deleting (RemoveFinalizer m monitorFinalizer) Hdel).
      destruct (Finalizers (Meta (RemoveFinalizer m monitorFinalizer))); reflexivity.
    - apply ContainsFinalizer_Remove.
    - destruct (update_err env); [reflexivity|congruence]. }
  split.
  { intros Hid. apply Htail. rewrite Reconcile_deleting. unfold handleDeletion.
    rewrite Hfin, (eqb_empty_true _ Hid). cbn [negb].
    unfold bind, Get_Monitor, ret. cbn [value world trace app].
    rewrite update_cleared. cbn [value world trace app].
    destruct (update_err env); reflexivity. }
  intros Hid. apply eqb_empty_false in Hid.
  assert (Hhead :
    bind (Get_Monitor env req) (fun _ => handleDeletion env m) w =
    let d :=
      match upbot_delete env with
      | (Some code, Some e) =>
        if Z.eqb code StatusNotFound then None else Some e
      | (None, Some e) => Some e
      | (_, None) => None
      end in
    match d with
    | Some e => {| value := Some e; world := w;
                   trace := [GetMonitor req;
                             UpbotDelete (ExternalID (Status m)) (upbot_delete env)] |}
    | None =>
      {| value := update_err env;
         world := match update_err env with
                  | Some _ => w
                  | None => set_monitors
                      (store_update req (RemoveFinalizer m monitorFinalizer)
                                    (monitors w)) w
                  end;
         trace := GetMonitor req ::
                  [UpbotDelete (ExternalID (Status m)) (upbot_delete env)] ++
                  [UpdateMonitor (RemoveFinalizer m monitorFinalizer)] |}
    end).
  { unfold handleDeletion. rewrite Hfin, Hid. cbn [negb].
    unfold bind, Get_Monitor, Upbot_Delete, ret. cbn [value world trace app].
    destruct (upbot_delete env) as [[code|] [e|]]; cbn [value world trace app];
      try destruct (Z.eqb code StatusNotFound);
      cbn [value world trace app]; rewrite ?update_cleared;
      try reflexivity; destruct (update_err env); reflexivity. }
  rewrite <- Reconcile_deleting in Hhead.
  split; [|split].
  - intros resp Hans. apply Htail. rewrite Hhead, Hans.
    destruct resp; reflexivity.
  - intros e Hans. apply Htail. rewrite Hhead, Hans. reflexivity.
  - intros resp e Hans Hresp. rewrite Hhead, Hans.
    assert (Hd : match resp with
                 | Some code => if Z.eqb code StatusNotFound then None else Some e
                 | None => Some e
                 end = Some e).
    { destruct resp as [code|]; [|reflexivity].
      destruct (Z.eqb_spec code StatusNotFound); [congruence|reflexivity]. }
    cbv zeta. rewrite Hd. cbn [trace value world]. auto.
Qed.

End Deletion.

Lemma deletion_handling_witness :
  let m := demo_monitor [MonitorController.monitorFinalizer] (Some 1700000000) "ext-1" in
  let cleared := demo_monitor [] (Some 1700000000) "ext-1" in
  let o := MonitorController.Reconcile gone_env demo_key (world_of None (Some m)) in
  trace o = [GetMonitor demo_key;
             UpbotDelete "ext-1" (upbot_delete gone_env);
             UpdateMonitor cleared] ∧
  value o = None ∧
  monitors (world o) !! demo_key = None.
Proof.
  cbv zeta.
  pose proof (deletion_handling gone_env demo_key
                (world_of None (Some (demo_monitor [MonitorController.monitorFinalizer]
                                                   (Some 1700000000) "ext-1")))
                (demo_monitor [MonitorController.monitorFinalizer] (Some 1700000000) "ext-1")
                eq_refl eq_refl eq_refl eq_refl) as [_ H].
  destruct (H eq_refl) as [_ H2].
  destruct (H2 ltac:(discriminate)) as (_ & H404 & _).
  destruct (H404 _ eq_refl) as (Ht & Hv & Hs & _).
  split; [exact Ht|]. split; [exact Hv|]. exact (proj1 (Hs eq_refl)).
Defined.

(** ** A live Monitor: attaching the marker, creating, updating *)

(** Case analysis on everything a reconcile inspects. *)
Ltac split_cases :=
  repeat (reduce_calls;
          match goal with
          | |- context [match ?x with _ => _ end] => destruct x eqn:?
          end).

Section Live.

Import MonitorController.

Variables (req : Key) (w : World) (m : Monitor).
Hypothesis Hm : monitors w !! req = Some m.
Hypothesis Hkey : key_of (Meta m) = req.
Hypothesis Hlive : Time_IsZero (DeletionTimestamp (Meta m)) = true.

(** A live Monitor without the marker: the marker is attached and written,
    and that is all. *)
Lemma Reconcile_fresh (env : Env) :
  get_monitor_err env = None →
  ContainsFinalizer m monitorFinalizer = false →
  Reconcile env req w =
  {| value := update_err env;
     world := match update_err env with
              | Some _ => w
              | None =>
                set_monitors
                  (<[req := AddFinalizer m monitorFinalizer]> (monitors w)) w
              end;
     trace := [GetMonitor req; UpdateMonitor (AddFinalizer m monitorFinalizer)] |}.
Proof.
  intros Hget Hfin. unfold Reconcile. unfold_calls. crunch.
  rewrite key_of_Add, Hkey, Hm, with_status_Add.
  rewrite store_update_live by (rewrite Deletion_Add; exact Hlive).
  destruct (update_err env); reflexivity.
Qed.

Hypothesis Hfin : ContainsFinalizer m monitorFinalizer = true.

Lemma Reconcile_live (env : Env) :
  get_monitor_err env = None →
  Reconcile env req w =
  bind (Get_Monitor env req) (fun _ => handleCreateOrUpdate env m) w.
Proof. intros Hget. unfold Reconcile. unfold_calls. crunch. reflexivity. Qed.

(** Armed: the marker is there and [externalID] is empty. *)
Lemma Reconcile_armed (env : Env) :
  get_monitor_err env = None →
  ExternalID (Status m) = ""%string →
  Reconcile env req w =
  match upbot_create env with
  | (Some (Some id), None) =>
    {| value := status_update_err env;
       world := match status_update_err env with
                | Some _ => w
                | None =>
                  set_monitors
                    (<[req := with_status {| ExternalID := id |} m]> (monitors w)) w
                end;
       trace := [GetMonitor req;
                 UpbotCreate (create_request m) (upbot_create env);
                 UpdateMonitorStatus (with_status {| ExternalID := id |} m)] |}
  | (_, err) =>
    {| value := err; world := w;
       trace := [GetMonitor req;
                 UpbotCreate (create_request m) (upbot_create env)] |}
  end.
Proof.
  intros Hget Hid. rewrite (Reconcile_live _ Hget). unfold handleCreateOrUpdate.
  rewrite Hid. cbn [String.eqb negb]. unfold_calls. reduce_calls.
  fold (create_request m).
  destruct (upbot_create env) as [[[id|]|] [e|]]; reduce_calls; try reflexivity.
  cbn [Meta with_status Status]. rewrite Hkey, Hm.
  destruct (status_update_err env); reflexivity.
Qed.

(** Synced: the marker is there and [externalID] is set. *)
Lemma Reconcile_synced (env : Env) :
  get_monitor_err env = None →
  ExternalID (Status m) ≠ ""%string →
  Reconcile env req w =
  {| value := upbot_update env; world := w;
     trace := [GetMonitor req;
               UpbotUpdate (ExternalID (Status m)) (update_request m)
                           (upbot_update env)] |}.
Proof.
  intros Hget Hid. rewrite (Reconcile_live _ Hget). unfold handleCreateOrUpdate.
  rewrite (eqb_empty_false _ Hid). cbn [negb]. unfold handleUpdate.
  unfold_calls. reduce_calls. fold (update_request m).
  destruct (upbot_update env); reflexivity.
Qed.

(** Whatever the collaborators answer, a synced Monitor is left as it is
    and no create call is issued for it. *)
Lemma synced_is_stable (env : Env) :
  ExternalID (Status m) ≠ ""%string →
  world (Reconcile env req w) = w ∧
  existsb is_upbot_create (trace (Reconcile env req w)) = false.
Proof.
  intros Hid. destruct (get_monitor_err env) as [e|] eqn:Hget.
  - unfold Reconcile. unfold_calls. crunch. split; reflexivity.
  - rewrite (Reconcile_synced _ Hget Hid). split; reflexivity.
Qed.

End Live.

(** A create call is only ever issued for a Monitor that was read from the
    store live, with the marker on it and without an external identifier. *)
Lemma create_needs_marker (env : Env) (req : Key) (w : World) :
  existsb is_upbot_create (trace (MonitorController.Reconcile env req w)) = true →
  ∃ m, monitors w !! req = Some m ∧
       Time_IsZero (DeletionTimestamp (Meta m)) = true ∧
       ContainsFinalizer m MonitorController.monitorFinalizer = true ∧
       ExternalID (Status m) = ""%string.
Proof.
  unfold MonitorController.Reconcile, MonitorController.handleDeletion,
    MonitorController.handleCreateOrUpdate, MonitorController.handleUpdate.
  unfold_calls. reduce_calls.
  destruct (get_monitor_err env); [discriminate|].
  destruct (monitors w !! req) as [m|] eqn:Hm; [|discriminate].
  destruct (Time_IsZero (DeletionTimestamp (Meta m))) eqn:Hlive; cbn [negb].
  - destruct (ContainsFinalizer m MonitorController.monitorFinalizer) eqn:Hfin;
      cbn [negb].
    + destruct (String.eqb_spec (ExternalID (Status m)) "") as [Hid|Hid];
        cbn [negb].
      * intros _. eauto.
      * split_cases; discriminate.
    + split_cases; discriminate.
  - split_cases; discriminate.
Qed.

(** Every entry of a run is a reconcile of the store it is paired with. *)
Lemma run_entry (rounds : list Round) (req : Key) (w0 : World) (i : nat)
    (w : World) (o : Outcome (option error)) :
  run rounds req w0 !! i = Some (w, o) →
  ∃ env, o = MonitorController.Reconcile env req w.
Proof.
  revert w0 i. induction rounds as [|r rs IH]; intros w0 i Hrun.
  - destruct i; discriminate.
  - destruct i as [|i]; cbn in Hrun.
    + injection Hrun as <- <-. eauto.
    + exact (IH _ i Hrun).
Qed.

(** C2.  The marker comes before any external create.  (1) A reconcile that
    issues a create call has read, from the store, a Monitor that carries the
    marker.  (2) The reconcile of a live Monitor without the marker issues
    exactly one write, the Monitor with the marker attached, and no call to
    Upbot; when the store takes the write the stored Monitor carries the
    marker.  (3) In a run that starts from a store whose Monitor lacks the
    marker, whatever the collaborators answer and whatever other writers do
    between reconciles, a create call is issued in the second reconcile at
    the earliest (index 1 counting from 0), and the store it starts from
    holds the marker. *)
Theorem finalizer_precedes_create :
  (∀ env req w,
     existsb is_upbot_create (trace (MonitorController.Reconcile env req w)) = true →
     ∃ m, monitors w !! req = Some m ∧
          ContainsFinalizer m MonitorController.monitorFinalizer = true) ∧
  (∀ env req w m,
     get_monitor_err env = None →
     monitors w !! req = Some m →
     key_of (Meta m) = req →
     Time_IsZero (DeletionTimestamp (Meta m)) = true →
     ContainsFinalizer m MonitorController.monitorFinalizer = false →
     let o := MonitorController.Reconcile env req w in
     let marked := AddFinalizer m MonitorController.monitorFinalizer in
     trace o = [GetMonitor req; UpdateMonitor marked] ∧
     existsb is_upbot_call (trace o) = false ∧
     value o = update_err env ∧
     (update_err env = None →
        monitors (world o) !! req = Some marked ∧
        ContainsFinalizer marked MonitorController.monitorFinalizer = true) ∧
     (update_err env ≠ None → world o = w)) ∧
  (∀ rounds req w0,
     (∀ m, monitors w0 !! req = Some m →
           ContainsFinalizer m MonitorController.monitorFinalizer = false) →
     ∀ i w o,
       run rounds req w0 !! i = Some (w, o) →
       existsb is_upbot_create (trace o) = true →
       (1 ≤ i)%nat ∧
       ∃ m, monitors w !! req = Some m ∧
            ContainsFinalizer m MonitorController.monitorFinalizer = true).
Proof.
  split; [|split].
  - intros env req w H. destruct (create_needs_marker env req w H) as (m & ? & _ & ? & _).
    eauto.
  - intros env req w m Hget Hm Hkey Hlive Hfin. cbv zeta.
    rewrite (Reconcile_fresh req w m Hm Hkey Hlive env Hget Hfin).
    cbn [trace value world existsb is_upbot_call orb]. repeat split.
    + rewrite H. cbn. apply lookup_insert_eq.
    + apply ContainsFinalizer_Add.
    + destruct (update_err env); [reflexivity|congruence].
  - intros rounds req w0 Hfresh i w o Hrun Hcreate.
    destruct (run_entry _ _ _ _ _ _ Hrun) as [env ->].
    destruct (create_needs_marker env req w Hcreate) as (m & Hm & _ & Hfin & _).
    split; [|eauto].
    destruct i as [|i]; [|lia].
    destruct rounds as [|r rs]; [discriminate|]. cbn in Hrun.
    injection Hrun as <- _. rewrite (Hfresh m Hm) in Hfin. discriminate.
Qed.

Lemma finalizer_precedes_create_witness :
  let steady := {| answers := quiet "ext-1"; others := fun w => w |} in
  let entries := run [steady; steady] demo_key (world_of None (Some fresh_monitor)) in
  map (fun e => trace (snd e)) entries =
    [ [GetMonitor demo_key; UpdateMonitor armed_monitor];
      [GetMonitor demo_key;
       UpbotCreate (create_request armed_monitor) (Some (Some "ext-1"), None);
       UpdateMonitorStatus synced_monitor] ] ∧
  (1 ≤ 1)%nat ∧
  ∃ m, monitors (world_of None (Some armed_monitor)) !! demo_key = Some m ∧
       ContainsFinalizer m MonitorController.monitorFinalizer = true.
Proof.
  cbv zeta. split; [vm_compute; reflexivity|].
  destruct finalizer_precedes_create as (_ & _ & Hrun).
  refine (Hrun [ {| answers := quiet "ext-1"; others := fun w => w |};
                 {| answers := quiet "ext-1"; others := fun w => w |} ]
               demo_key (world_of None (Some fresh_monitor)) _
               1%nat (world_of None (Some armed_monitor))
               (MonitorController.Reconcile (quiet "ext-1") demo_key
                  (world_of None (Some armed_monitor))) _ _).
  - intros m Hm. vm_compute in Hm. injection Hm as <-. reflexivity.
  - vm_compute. reflexivity.
  - vm_compute. reflexivity.
Defined.

(** C3.  A live Monitor with the marker.  A create call is issued exactly
    when [externalID] is empty.  When the call answers with an identifier,
    the Monitor with that identifier in its status is written with the
    status update, whose result is the reconcile's; when the store takes the
    write, the stored status holds the identifier.  When the call fails, the
    error is returned, the store is untouched, and the next reconcile issues
    the create call again. *)
Theorem create_iff_no_externalID (env : Env) (req : Key) (w : World) (m : Monitor) :
  get_monitor_err env = None →
  monitors w !! req = Some m →
  key_of (Meta m) = req →
  Time_IsZero (DeletionTimestamp (Meta m)) = true →
  ContainsFinalizer m MonitorController.monitorFinalizer = true →
  let o := MonitorController.Reconcile env req w in
  (existsb is_upbot_create (trace o) = true ↔ ExternalID (Status m) = ""%string) ∧
  (ExternalID (Status m) = ""%string →
     (∀ id, upbot_create env = (Some (Some id), None) →
        let stored := with_status {| ExternalID := id |} m in
        trace o = [GetMonitor req;
                   UpbotCreate (create_request m) (upbot_create env);
                   UpdateMonitorStatus stored] ∧
        value o = status_update_err env ∧
        (status_update_err env = None →
           monitors (world o) !! req = Some stored ∧
           ExternalID (Status stored) = id) ∧
        (status_update_err env ≠ None → world o = w)) ∧
     (∀ resp e, upbot_create env = (resp, Some e) →
        trace o = [GetMonitor req;
                   UpbotCreate (create_request m) (upbot_create env)] ∧
        value o = Some e ∧
        world o = w ∧
        ∀ env', get_monitor_err env' = None →
          ∃ rest,
            trace (MonitorController.Reconcile env' req (world o)) =
            GetMonitor req ::
            UpbotCreate (create_request m) (upbot_create env') :: rest)).
Proof.
  intros Hget Hm Hkey Hlive Hfin. cbv zeta. split; [split|].
  - intros H. destruct (create_needs_marker env req w H) as (m' & Hm' & _ & _ & Hid).
    congruence.
  - intros Hid. rewrite (Reconcile_armed req w m Hm Hkey Hlive Hfin env Hget Hid).
    destruct (upbot_create env) as [[[id|]|] [e|]]; reflexivity.
  - intros Hid.
    pose proof (Reconcile_armed req w m Hm Hkey Hlive Hfin) as Harmed.
    split.
    + intros id Hans. rewrite (Harmed env Hget Hid), Hans.
      cbn [trace value world]. repeat split.
      * rewrite H. cbn. apply lookup_insert_eq.
      * destruct (status_update_err env); [reflexivity|congruence].
    + intros resp e Hans. rewrite (Harmed env Hget Hid), Hans.
      destruct resp as [[id|]|]; cbn [trace value world]; repeat split;
        intros env' Hget'; rewrite (Harmed env' Hget' Hid);
        destruct (upbot_create env') as [[[id'|]|] [e'|]]; eauto.
Qed.

Lemma create_iff_no_externalID_witness :
  let o := MonitorController.Reconcile create_down_env demo_key
             (world_of None (Some armed_monitor)) in
  existsb is_upbot_create (trace o) = true ∧
  value o = Some (ErrApi true "503 Service Unavailable") ∧
  world o = world_of None (Some armed_monitor) ∧
  ∃ rest,
    trace (MonitorController.Reconcile (quiet "ext-1") demo_key (world o)) =
    GetMonitor demo_key ::
    UpbotCreate (create_request armed_monitor) (Some (Some "ext-1"), None) :: rest.
Proof.
  cbv zeta.
  pose proof (create_iff_no_externalID create_down_env demo_key
                (world_of None (Some armed_monitor)) armed_monitor
                eq_refl eq_refl eq_refl eq_refl eq_refl) as [Hiff H].
  destruct (H eq_refl) as [_ Hfail].
  destruct (Hfail _ _ eq_refl) as (_ & Hv & Hw & Hnext).
  split; [exact (proj2 Hiff eq_refl)|]. split; [exact Hv|]. split; [exact Hw|].
  exact (Hnext (quiet "ext-1") eq_refl).
Defined.

(** Runs in which the Monitor is only written by this reconciler leave a
    synced Monitor as it is, and never issue a create call for it. *)
Lemma synced_run_stable (req : Key) (w : World) (m : Monitor)
    (rounds : list Round) :
  monitors w !! req = Some m →
  Time_IsZero (DeletionTimestamp (Meta m)) = true →
  ContainsFinalizer m MonitorController.monitorFinalizer = true →
  ExternalID (Status m) ≠ ""%string →
  (∀ r w', r ∈ rounds → others r w' = w') →
  ∀ i w' o', run rounds req w !! i = Some (w', o') →
    w' = w ∧ world o' = w ∧ existsb is_upbot_create (trace o') = false.
Proof.
  intros Hm Hlive Hfin Hid. induction rounds as [|r rs IH]; intros Hclosed i w' o' Hrun.
  - destruct i; discriminate.
  - pose proof (synced_is_stable req w m Hm Hlive Hfin (answers r) Hid) as [Hw Hno].
    destruct i as [|i].
    + injection Hrun as <- <-. auto.
    + change (run rs req (others r (world (MonitorController.Reconcile (answers r) req w)))
                !! i = Some (w', o')) in Hrun.
      rewrite Hw, (Hclosed r w) in Hrun by apply list_elem_of_here.
      apply (IH (fun r' w'' Hr => Hclosed r' w'' (list_elem_of_further _ _ _ Hr)) i w' o' Hrun).
Qed.

(** C9.  A live Monitor with the marker and a non-empty [externalID], whose
    external update fails: the error is returned, no write reaches the
    store, the stored [externalID] is the one it was, and no later reconcile
    (as long as the Monitor is only written by this reconciler) issues a
    create call. *)
Theorem update_failure_keeps_externalID (env : Env) (req : Key) (w : World)
    (m : Monitor) (e : error) :
  get_monitor_err env = None →
  monitors w !! req = Some m →
  key_of (Meta m) = req →
  Time_IsZero (DeletionTimestamp (Meta m)) = true →
  ContainsFinalizer m MonitorController.monitorFinalizer = true →
  ExternalID (Status m) ≠ ""%string →
  upbot_update env = Some e →
  let o := MonitorController.Reconcile env req w in
  value o = Some e ∧
  trace o = [GetMonitor req;
             UpbotUpdate (ExternalID (Status m)) (update_request m) (Some e)] ∧
  existsb is_write (trace o) = false ∧
  monitors (world o) !! req = Some m ∧
  ∀ rounds,
    (∀ r w', r ∈ rounds → others r w' = w') →
    ∀ i w' o', run rounds req (world o) !! i = Some (w', o') →
      existsb is_upbot_create (trace o') = false ∧
      monitors (world o') !! req = Some m.
Proof.
  intros Hget Hm Hkey Hlive Hfin Hid Hfail. cbv zeta.
  rewrite (Reconcile_synced req w m Hm Hlive Hfin env Hget Hid), Hfail.
  cbn [value trace world existsb is_write orb].
  split; [reflexivity|]. split; [reflexivity|]. split; [reflexivity|].
  split; [exact Hm|].
  intros rounds Hclosed i w' o' Hrun.
  destruct (synced_run_stable req w m rounds Hm Hlive Hfin Hid Hclosed i w' o' Hrun)
    as (_ & -> & Hno).
  auto.
Qed.

Lemma update_failure_keeps_externalID_witness :
  let o := MonitorController.Reconcile update_down_env demo_key
             (world_of None (Some synced_monitor)) in
  value o = Some (ErrApi true "404 Not Found") ∧
  monitors (world o) !! demo_key = Some synced_monitor ∧
  ExternalID (Status synced_monitor) = "ext-1"%string.
Proof.
  cbv zeta.
  pose proof (update_failure_keeps_externalID update_down_env demo_key
                (world_of None (Some synced_monitor)) synced_monitor
                (ErrApi true "404 Not Found")
                eq_refl eq_refl eq_refl eq_refl eq_refl ltac:(discriminate) eq_refl)
    as (Hv & _ & _ & Hs & _).
  split; [exact Hv|]. split; [exact Hs|]. reflexivity.
Defined.

(** C10.  A live Monitor with the marker and no [externalID], whose create
    call answers success without an identifier (a nil response, or a
    response whose [Id] is nil): the reconcile returns success, writes
    nothing and leaves the stored [externalID] empty.  The next reconcile
    issues the same create request again; when Upbot accepts it too, the
    service has registered the Monitor twice. *)
Theorem create_without_id_repeats (env1 env2 : Env) (req : Key) (w : World)
    (m : Monitor) :
  get_monitor_err env1 = None →
  get_monitor_err env2 = None →
  monitors w !! req = Some m →
  key_of (Meta m) = req →
  Time_IsZero (DeletionTimestamp (Meta m)) = true →
  ContainsFinalizer m MonitorController.monitorFinalizer = true →
  ExternalID (Status m) = ""%string →
  upbot_create env1 = (None, None) ∨ upbot_create env1 = (Some None, None) →
  let o1 := MonitorController.Reconcile env1 req w in
  let o2 := MonitorController.Reconcile env2 req (world o1) in
  value o1 = None ∧
  trace o1 = [GetMonitor req; UpbotCreate (create_request m) (upbot_create env1)] ∧
  existsb is_write (trace o1) = false ∧
  monitors (world o1) !! req = Some m ∧
  (∃ rest, trace o2 =
           GetMonitor req :: UpbotCreate (create_request m) (upbot_create env2) :: rest) ∧
  (snd (upbot_create env2) = None →
   registered (trace o1 ++ trace o2) = [create_request m; create_request m]).
Proof.
  intros Hget1 Hget2 Hm Hkey Hlive Hfin Hid Hans. cbv zeta.
  pose proof (Reconcile_armed req w m Hm Hkey Hlive Hfin) as Harmed.
  assert (H1 : MonitorController.Reconcile env1 req w =
               {| value := None; world := w;
                  trace := [GetMonitor req;
                            UpbotCreate (create_request m) (upbot_create env1)] |}).
  { rewrite (Harmed env1 Hget1 Hid). destruct Hans as [-> | ->]; reflexivity. }
  rewrite H1. cbn [value trace world existsb is_write orb].
  rewrite (Harmed env2 Hget2 Hid).
  split; [reflexivity|]. split; [reflexivity|]. split; [reflexivity|].
  split; [exact Hm|]. split.
  - destruct (upbot_create env2) as [[[id|]|] [e|]]; eauto.
  - destruct Hans as [-> | ->];
      destruct (upbot_create env2) as [[[id|]|] [e|]]; cbn [snd];
      intros; try discriminate; reflexivity.
Qed.

Lemma create_without_id_repeats_witness :
  let o1 := MonitorController.Reconcile no_id_env demo_key
              (world_of None (Some armed_monitor)) in
  let o2 := MonitorController.Reconcile no_id_env demo_key (world o1) in
  value o1 = None ∧
  monitors (world o1) !! demo_key = Some armed_monitor ∧
  registered (trace o1 ++ trace o2) =
    [create_request armed_monitor; create_request armed_monitor].
Proof.
  cbv zeta.
  pose proof (create_without_id_repeats no_id_env no_id_env demo_key
                (world_of None (Some armed_monitor)) armed_monitor
                eq_refl eq_refl eq_refl eq_refl eq_refl eq_refl eq_refl
                (or_intror eq_refl))
    as (Hv & _ & _ & Hs & _ & Hdup).
  split; [exact Hv|]. split; [exact Hs|]. exact (Hdup eq_refl).
Defined.

(** ** The watcher of [ingress_watcher_controller.go] *)

(** What [getTargetFromIngress] answers, by cases on the first rule. *)
Lemma getTargetFromIngress_cases (ingress : Ingress) :
  IngressWatcher.getTargetFromIngress ingress =
  match Rules ingress with
  | [] => inr (ErrFmt "no rules found in Ingress")
  | rule :: _ =>
    if String.eqb (Host rule) "" then inr (ErrFmt "no host found in Ingress rule")
    else inl ((match TLS ingress with [] => "http" | _ :: _ => "https" end)
              +:+ "://" +:+ Host rule)
  end.
Proof.
  unfold IngressWatcher.getTargetFromIngress.
  destruct (Rules ingress) as [|rule rest]; [reflexivity|].
  destruct (String.eqb (Host rule) ""); [reflexivity|].
  destruct (TLS ingress); reflexivity.
Qed.

(** The Monitor [createMonitorFromIngress] builds for an Ingress. *)
Lemma createMonitorFromIngress_shape (r : IngressWatcher.IngressWatcherReconciler)
    (env : Env) (ingress : Ingress) (w : World) (m : Monitor) :
  In m (created (trace (IngressWatcher.createMonitorFromIngress r env ingress w))) →
  ∃ target,
    IngressWatcher.getTargetFromIngress ingress = inl target ∧
    Name (Meta m) = Name (IMeta ingress) ∧
    Namespace (Meta m) = Namespace (IMeta ingress) ∧
    Labels (Meta m) = {[ "upbot.app/source" := "ingress-watcher" ]} ∧
    Annotations (Meta m) = {[ "upbot.app/auto-generated" := "true" ]} ∧
    OwnerReferences (Meta m) = [owner_link ingress] ∧
    Type_ (Spec m) = "http" ∧
    Target (Spec m) = target ∧
    Interval (Spec m) =
      (if String.eqb (IngressWatcher.r_Interval r) "" then "30"
       else IngressWatcher.r_Interval r).
Proof.
  unfold IngressWatcher.createMonitorFromIngress, SetControllerReference.
  destruct (IngressWatcher.getTargetFromIngress ingress) as [target|e];
    [|cbn; intros []].
  destruct (set_owner_err env); [cbn; intros []|].
  unfold_calls. reduce_calls. intros Hin. exists target.
  assert (Hm : m = with_owners ([] ++ [owner_link ingress])
    {| Meta := {| Name := Name (IMeta ingress);
                  Namespace := Namespace (IMeta ingress);
                  UID := "";
                  Labels := {[ "upbot.app/source" := "ingress-watcher" ]};
                  Annotations := {[ "upbot.app/auto-generated" := "true" ]};
                  Finalizers := [];
                  DeletionTimestamp := None;
                  OwnerReferences := [] |};
       Spec := {| Type_ := "http"; Target := target;
                  Interval := if String.eqb (IngressWatcher.r_Interval r) ""
                              then "30" else IngressWatcher.r_Interval r |};
       Status := {| ExternalID := "" |} |}).
  { revert Hin. split_cases; cbn; intuition congruence. }
  subst m. cbn. repeat split; reflexivity.
Qed.

(** [Reconcile] only creates through [createMonitorFromIngress], for the
    Ingress it has read at the key. *)
Lemma watcher_created_shape (r : IngressWatcher.IngressWatcherReconciler)
    (env : Env) (req : Key) (w : World) (m : Monitor) :
  In m (created (trace (IngressWatcher.Reconcile r env req w))) →
  ∃ ingress,
    ingresses w !! req = Some ingress ∧
    In m (created (trace (IngressWatcher.createMonitorFromIngress r env ingress w))).
Proof.
  unfold IngressWatcher.Reconcile. unfold_calls. reduce_calls.
  destruct (get_ingress_err env) as [e|].
  { destruct e; cbn; intros []. }
  destruct (ingresses w !! req) as [ingress|] eqn:Hing; [|cbn; intros []].
  reduce_calls. intros Hin. exists ingress. split; [reflexivity|].
  revert Hin.
  destruct (get_monitor_err env) as [e|].
  - destruct e; cbn [IsNotFound negb]; try (cbn; intros []). cbn. auto.
  - destruct (monitors w !! req) as [old|]; [cbn; intros []|]. cbn. auto.
Qed.

(** C7.  Deriving the target fails exactly when the Ingress has no rule or
    its first rule has an empty host; the failure is a validation error
    (built by [fmt.Errorf]).  [createMonitorFromIngress] then returns that
    error without any call, and so does a [Reconcile] that finds no Monitor
    at the key; no reconcile of such an Ingress writes to the store. *)
Theorem derivation_fails_iff_no_host :
  (∀ ingress,
     (∃ e, IngressWatcher.getTargetFromIngress ingress = inr e) ↔
     (Rules ingress = [] ∨
      ∃ rule rest, Rules ingress = rule :: rest ∧ Host rule = ""%string)) ∧
  (∀ ingress e,
     IngressWatcher.getTargetFromIngress ingress = inr e → ∃ msg, e = ErrFmt msg) ∧
  (∀ r env ingress w e,
     IngressWatcher.getTargetFromIngress ingress = inr e →
     IngressWatcher.createMonitorFromIngress r env ingress w =
     {| value := Some e; world := w; trace := [] |}) ∧
  (∀ r env req w ingress e,
     get_ingress_err env = None →
     ingresses w !! req = Some ingress →
     IngressWatcher.getTargetFromIngress ingress = inr e →
     let o := IngressWatcher.Reconcile r env req w in
     existsb is_write (trace o) = false ∧
     world o = w ∧
     (get_monitor_err env = None → monitors w !! req = None →
      value o = Some e ∧ trace o = [GetIngress req; GetMonitor req])).
Proof.
  split; [|split; [|split]].
  - intros ingress. rewrite getTargetFromIngress_cases.
    destruct (Rules ingress) as [|rule rest].
    + split; [auto|]. intros _. eauto.
    + destruct (String.eqb_spec (Host rule) "") as [Hhost|Hhost].
      * split; [|eauto]. intros _. right. eauto.
      * split.
        -- intros [e He]. discriminate.
        -- intros [Hnil | (rule' & rest' & Heq & Hempty)]; [discriminate|].
           injection Heq as <- <-. contradiction.
  - intros ingress e. rewrite getTargetFromIngress_cases.
    destruct (Rules ingress) as [|rule rest].
    + intros [= <-]. eauto.
    + destruct (String.eqb (Host rule) ""); intros [= <-]. eauto.
  - intros r env ingress w e He.
    unfold IngressWatcher.createMonitorFromIngress. rewrite He. reflexivity.
  - intros r env req w ingress e Hget Hing He. cbv zeta.
    unfold IngressWatcher.Reconcile. unfold_calls. rewrite Hget, Hing.
    reduce_calls. unfold IngressWatcher.createMonitorFromIngress. rewrite He.
    unfold_calls.
    destruct (get_monitor_err env) as [e'|].
    + destruct e'; cbn; repeat split; intros; discriminate.
    + destruct (monitors w !! req) as [old|]; cbn; repeat split;
        intros; discriminate.
Qed.

Lemma derivation_fails_iff_no_host_witness :
  let w := world_of (Some ruleless_ingress) None in
  let o := IngressWatcher.Reconcile plain_watcher (quiet "") demo_key w in
  value o = Some (ErrFmt "no rules found in Ingress") ∧
  trace o = [GetIngress demo_key; GetMonitor demo_key] ∧
  world o = w.
Proof.
  cbv zeta.
  destruct derivation_fails_iff_no_host as (_ & _ & _ & H).
  destruct (H plain_watcher (quiet "") demo_key
              (world_of (Some ruleless_ingress) None) ruleless_ingress
              (ErrFmt "no rules found in Ingress") eq_refl eq_refl eq_refl)
    as (_ & Hw & Hv).
  destruct (Hv eq_refl eq_refl) as [Hval Htrace].
  split; [exact Hval|]. split; [exact Htrace|exact Hw].
Defined.

(** The watcher never asks the store to delete anything. *)
Lemma watcher_deletes_nothing (r : IngressWatcher.IngressWatcherReconciler)
    (env : Env) (req : Key) (w : World) :
  deleted (trace (IngressWatcher.Reconcile r env req w)) = [].
Proof.
  unfold IngressWatcher.Reconcile, IngressWatcher.createMonitorFromIngress,
    SetControllerReference.
  unfold_calls. split_cases; reflexivity.
Qed.

(** C1.  [Reconcile] of [ingress_watcher_controller.go] has no clean-up.
    It never issues a delete.  For an absent Ingress it returns after the
    one read, without looking the Monitor up.  The [upbot.app/monitor]
    directive is not read: with [monitor: "false"] and a managed Monitor at
    the key the Monitor is left alone, and with no Monitor at the key one is
    created.  On the same three stores the annotation-aware revision deletes
    the managed Monitor, deletes it, and writes nothing. *)
Theorem watcher_never_deletes :
  (∀ r env req w, deleted (trace (IngressWatcher.Reconcile r env req w)) = []) ∧
  (∀ r env req w,
     get_ingress_err env = None →
     ingresses w !! req = None →
     IngressWatcher.Reconcile r env req w =
     {| value := None; world := w; trace := [GetIngress req] |}) ∧
  (let w := world_of (Some disabled_ingress) (Some owned_monitor) in
   spec_disabled (Annotations (IMeta disabled_ingress) !! "upbot.app/monitor") = true ∧
   managed owned_monitor = true ∧
   IngressWatcher.Reconcile plain_watcher (quiet "") demo_key w =
     {| value := None; world := w;
        trace := [GetIngress demo_key; GetMonitor demo_key] |} ∧
   trace (AnnotatedWatcher.Reconcile plain_watcher (quiet "") demo_key w) =
     [GetIngress demo_key; GetMonitor demo_key; DeleteMonitor owned_monitor]) ∧
  (let w := world_of None (Some owned_monitor) in
   IngressWatcher.Reconcile plain_watcher (quiet "") demo_key w =
     {| value := None; world := w; trace := [GetIngress demo_key] |} ∧
   trace (AnnotatedWatcher.Reconcile plain_watcher (quiet "") demo_key w) =
     [GetIngress demo_key; GetMonitor demo_key; DeleteMonitor owned_monitor]) ∧
  (let w := world_of (Some disabled_ingress) None in
   existsb is_write
     (trace (IngressWatcher.Reconcile plain_watcher (quiet "") demo_key w)) = true ∧
   length (created
     (trace (IngressWatcher.Reconcile plain_watcher (quiet "") demo_key w))) = 1%nat ∧
   trace (AnnotatedWatcher.Reconcile plain_watcher (quiet "") demo_key w) =
     [GetIngress demo_key; GetMonitor demo_key]).
Proof.
  split; [exact watcher_deletes_nothing|]. split.
  { intros r env req w Hget Hing. unfold IngressWatcher.Reconcile.
    unfold_calls. rewrite Hget, Hing. reflexivity. }
  cbv zeta. repeat split; vm_compute; reflexivity.
Qed.

(** C5.  [getTargetFromIngress] of [ingress_watcher_controller.go] builds
    [scheme://host] and nothing more: for an Ingress with a first rule whose
    host is not empty, the target is the scheme ([https] exactly when a TLS
    entry is declared), ["://"] and the host, whatever the annotations are.
    With the directive [path: "health"] the target carries no path, where the
    design document (and the annotation-aware revision) append [/health]. *)
Theorem target_ignores_path_directive :
  (∀ ingress rule rest,
     Rules ingress = rule :: rest →
     Host rule ≠ ""%string →
     IngressWatcher.getTargetFromIngress ingress =
     inl ((match TLS ingress with [] => "http" | _ :: _ => "https" end)
          +:+ "://" +:+ Host rule)) ∧
  (IngressWatcher.getTargetFromIngress health_ingress =
     inl "http://myapp.example.com"%string ∧
   spec_target (TLS health_ingress) "myapp.example.com"
               (Annotations (IMeta health_ingress) !! "upbot.app/path") =
     "http://myapp.example.com/health"%string ∧
   AnnotatedWatcher.getTargetFromIngress health_ingress =
     inl "http://myapp.example.com/health"%string).
Proof.
  split.
  - intros ingress rule rest Hrules Hhost. rewrite getTargetFromIngress_cases.
    rewrite Hrules, (eqb_empty_false _ Hhost). reflexivity.
  - repeat split; vm_compute; reflexivity.
Qed.

(** C6.  The interval [createMonitorFromIngress] of
    [ingress_watcher_controller.go] gives a Monitor is the reconciler's
    configured default, or ["30"] when none is configured; the
    [upbot.app/interval] directive is not read.  With the directive ["10"]
    and the default ["30"] the created Monitor has interval ["30"], where the
    design document (and the annotation-aware revision) give ["10"]. *)
Theorem interval_ignores_route_directive :
  (∀ r env req w m,
     In m (created (trace (IngressWatcher.Reconcile r env req w))) →
     Interval (Spec m) = spec_interval None (IngressWatcher.r_Interval r)) ∧
  (let w := world_of (Some fast_ingress) None in
   map (fun m => Interval (Spec m))
       (created (trace (IngressWatcher.Reconcile default_watcher (quiet "")
                          demo_key w))) = ["30"%string] ∧
   spec_interval (Annotations (IMeta fast_ingress) !! "upbot.app/interval")
                 (IngressWatcher.r_Interval default_watcher) = "10"%string ∧
   map (fun m => Interval (Spec m))
       (created (trace (AnnotatedWatcher.Reconcile default_watcher (quiet "")
                          demo_key w))) = ["10"%string]).
Proof.
  split.
  - intros r env req w m Hin.
    destruct (watcher_created_shape r env req w m Hin) as (ingress & _ & Hin').
    destruct (createMonitorFromIngress_shape r env ingress w m Hin')
      as (target & _ & _ & _ & _ & _ & _ & _ & _ & Hint).
    exact Hint.
  - cbv zeta. repeat split; vm_compute; reflexivity.
Qed.

(** C8.  The Monitors [ingress_watcher_controller.go] creates carry the
    ownership label, the [auto-generated] annotation and the owner link to
    the Ingress read at the key, and nothing else: no [target-type] label and
    no [source-ingress] annotation.  For the Ingress [default/my-app] the
    annotation-aware revision creates a Monitor that carries both. *)
Theorem created_monitor_metadata :
  (∀ r env req w m,
     In m (created (trace (IngressWatcher.Reconcile r env req w))) →
     ∃ ingress,
       ingresses w !! req = Some ingress ∧
       Labels (Meta m) !! "upbot.app/source" = Some "ingress-watcher"%string ∧
       Annotations (Meta m) !! "upbot.app/auto-generated" = Some "true"%string ∧
       OwnerReferences (Meta m) = [owner_link ingress] ∧
       Labels (Meta m) !! "upbot.app/target-type" = None ∧
       Annotations (Meta m) !! "upbot.app/source-ingress" = None) ∧
  (let w := world_of (Some plain_ingress) None in
   (∃ m,
      created (trace (IngressWatcher.Reconcile plain_watcher (quiet "")
                        demo_key w)) = [m] ∧
      map_index (Labels (Meta m)) "upbot.app/target-type" = ""%string ∧
      map_index (Annotations (Meta m)) "upbot.app/source-ingress" = ""%string) ∧
   (∃ m,
      created (trace (AnnotatedWatcher.Reconcile plain_watcher (quiet "")
                        demo_key w)) = [m] ∧
      map_index (Labels (Meta m)) "upbot.app/source" = "ingress-watcher"%string ∧
      map_index (Labels (Meta m)) "upbot.app/target-type" = "http"%string ∧
      map_index (Annotations (Meta m)) "upbot.app/auto-generated" = "true"%string ∧
      map_index (Annotations (Meta m)) "upbot.app/source-ingress" =
        "default/my-app"%string ∧
      OwnerReferences (Meta m) = [owner_link plain_ingress])).
Proof.
  split.
  - intros r env req w m Hin.
    destruct (watcher_created_shape r env req w m Hin) as (ingress & Hing & Hin').
    destruct (createMonitorFromIngress_shape r env ingress w m Hin')
      as (target & _ & _ & _ & Hlabels & Hann & Hown & _).
    exists ingress. rewrite Hlabels, Hann.
    repeat split; try assumption; vm_compute; reflexivity.
  - cbv zeta. split; eexists; (split; [vm_compute; reflexivity|]);
      repeat split; vm_compute; reflexivity.
Qed.

(** ** The annotation-aware revision against the design document *)

(** The interval of the revision is the document's. *)
Lemma annotated_interval_is_spec (r : IngressWatcher.IngressWatcherReconciler)
    (ingress : Ingress) :
  AnnotatedWatcher.expectedInterval r ingress =
  spec_interval (Annotations (IMeta ingress) !! "upbot.app/interval")
                (IngressWatcher.r_Interval r).
Proof.
  unfold AnnotatedWatcher.expectedInterval, spec_interval.
  destruct (Annotations (IMeta ingress) !! "upbot.app/interval") as [d|];
    [|reflexivity].
  destruct (String.eqb d ""); reflexivity.
Qed.

(** Dropping the last byte when it is a slash, as the revision does it with
    an index and a slice. *)
Lemma strip_trailing_slash_slice (s : string) :
  s ≠ ""%string →
  strip_trailing_slash s =
  if AnnotatedWatcher.byte_is_slash s (String.length s - 1)
  then String.substring 0 (String.length s - 1) s
  else s.
Proof.
  induction s as [|c t IH]; [congruence|]. intros _.
  destruct t as [|d t'].
  - cbn. unfold AnnotatedWatcher.byte_is_slash, AnnotatedWatcher.slash. cbn.
    destruct (Ascii.eqb c _); reflexivity.
  - specialize (IH ltac:(discriminate)).
    change (strip_trailing_slash (String c (String d t')))
      with (String c (strip_trailing_slash (String d t'))).
    rewrite IH.
    assert (Hlen : (String.length (String c (String d t')) - 1 =
                    S (String.length (String d t') - 1))%nat)
      by (cbn [String.length]; lia).
    rewrite Hlen. unfold AnnotatedWatcher.byte_is_slash.
    change (String.get (S (String.length (String d t') - 1)) (String c (String d t')))
      with (String.get (String.length (String d t') - 1) (String d t')).
    change (String.substring 0 (S (String.length (String d t') - 1))
              (String c (String d t')))
      with (String c (String.substring 0 (String.length (String d t') - 1)
                        (String d t'))).
    destruct (String.get (String.length (String d t') - 1) (String d t')) as [x|];
      [|reflexivity].
    destruct (Ascii.eqb x AnnotatedWatcher.slash); reflexivity.
Qed.

(** The clean-up of a non-empty path directive is the document's. *)
Lemma cleanPath_is_spec (p : string) :
  p ≠ ""%string → AnnotatedWatcher.cleanPath p = spec_path (Some p).
Proof.
  intros Hp. unfold AnnotatedWatcher.cleanPath, spec_path.
  assert (Hlead :
    (if negb (AnnotatedWatcher.byte_is_slash p 0) then "/" +:+ p else p) =
    match p with
    | String c _ => if Ascii.eqb c (Ascii.ascii_of_nat 47) then p else "/" +:+ p
    | EmptyString => "/" +:+ p
    end).
  { destruct p as [|c t]; [congruence|].
    unfold AnnotatedWatcher.byte_is_slash, AnnotatedWatcher.slash. cbn.
    destruct (Ascii.eqb c _); reflexivity. }
  rewrite Hlead. clear Hlead.
  assert (Hshape : ∃ t,
    match p with
    | String c _ => if Ascii.eqb c (Ascii.ascii_of_nat 47) then p else "/" +:+ p
    | EmptyString => "/" +:+ p
    end = String (Ascii.ascii_of_nat 47) t).
  { destruct p as [|c t]; [congruence|].
    destruct (Ascii.eqb_spec c (Ascii.ascii_of_nat 47)) as [->|]; eauto. }
  destruct Hshape as [t ->].
  destruct t as [|d t'].
  - reflexivity.
  - rewrite strip_trailing_slash_slice by discriminate.
    change (String.eqb (String (Ascii.ascii_of_nat 47) (String d t')) "/")
      with false.
    reflexivity.
Qed.

(** The target of the revision is the document's, for a path directive that
    is absent or not empty. *)
Lemma annotated_target_is_spec (ingress : Ingress) (rule : IngressRule)
    (rest : list IngressRule) :
  Rules ingress = rule :: rest →
  Host rule ≠ ""%string →
  Annotations (IMeta ingress) !! "upbot.app/path" ≠ Some ""%string →
  AnnotatedWatcher.getTargetFromIngress ingress =
  inl (spec_target (TLS ingress) (Host rule)
                   (Annotations (IMeta ingress) !! "upbot.app/path")).
Proof.
  intros Hrules Hhost Hpath. unfold AnnotatedWatcher.getTargetFromIngress, spec_target.
  rewrite Hrules, (eqb_empty_false _ Hhost).
  assert (Hscheme : (if Nat.eqb (length (TLS ingress)) 0 then "http" else "https") =
                    match TLS ingress with [] => "http" | _ :: _ => "https" end)
    by (destruct (TLS ingress); reflexivity).
  rewrite Hscheme. clear Hscheme.
  assert (Happ : ∀ a b c : string, (a +:+ b) +:+ c = a +:+ b +:+ c).
  { intros a b c. induction a as [|x a IH]; [reflexivity|].
    change (String x ((a +:+ b) +:+ c) = String x (a +:+ b +:+ c)).
    f_equal. exact IH. }
  assert (Hnil : ∀ a : string, a +:+ "" = a).
  { intros a. induction a as [|x a IH]; [reflexivity|].
    change (String x (a +:+ "") = String x a). f_equal. exact IH. }
  destruct (Annotations (IMeta ingress) !! "upbot.app/path") as [p|].
  - destruct (String.eqb_spec p "") as [->|Hp]; [congruence|]. cbn [negb].
    rewrite (cleanPath_is_spec p Hp), !Happ. reflexivity.
  - cbn [spec_path]. rewrite !Hnil. reflexivity.
Qed.

(** An empty path directive is treated as an absent one by the revision (and
    is not read at all by [ingress_watcher_controller.go]); the document's
    wording turns it into the path ["/"]. *)
Lemma empty_path_directive :
  AnnotatedWatcher.getTargetFromIngress empty_path_ingress =
    inl "http://myapp.example.com"%string ∧
  IngressWatcher.getTargetFromIngress empty_path_ingress =
    inl "http://myapp.example.com"%string ∧
  spec_target (TLS empty_path_ingress) "myapp.example.com"
              (Annotations (IMeta empty_path_ingress) !! "upbot.app/path") =
    "http://myapp.example.com/"%string.
Proof. repeat split; vm_compute; reflexivity. Qed.

(** After the Ingress is gone the revision deletes a Monitor only when it
    also carries the matching [source-ingress] annotation: the Monitor
    [ingress_watcher_controller.go] creates, which has the label alone, is
    left in place. *)
Lemma annotated_cleanup_needs_source_annotation :
  managed fresh_monitor = true ∧
  AnnotatedWatcher.Reconcile plain_watcher (quiet "") demo_key
    (world_of None (Some fresh_monitor)) =
  {| value := None; world := world_of None (Some fresh_monitor);
     trace := [GetIngress demo_key; GetMonitor demo_key] |}.
Proof. split; vm_compute; reflexivity. Qed.

(** A delete the store answers with NotFound is returned by the revision as
    an error; it is not turned into a success. *)
Lemma annotated_delete_race_surfaces :
  let o := AnnotatedWatcher.Reconcile plain_watcher delete_raced_env demo_key
             (world_of (Some disabled_ingress) (Some owned_monitor)) in
  trace o = [GetIngress demo_key; GetMonitor demo_key; DeleteMonitor owned_monitor] ∧
  value o = Some ErrNotFound.
Proof. cbv zeta. split; vm_compute; reflexivity. Qed.

(** The revision's test of the [upbot.app/monitor] directive is the
    document's. *)
Lemma annotated_disabled_is_spec (ingress : Ingress) :
  AnnotatedWatcher.monitoringDisabled ingress =
  spec_disabled (Annotations (IMeta ingress) !! "upbot.app/monitor").
Proof. reflexivity. Qed.

(** X16.  Clean-up for a disabled Ingress in the revision: the Monitor at the key
    is deleted exactly when it is there and managed, and the result of the
    delete is the reconcile's. *)
Lemma annotated_disabled_cleanup (r : IngressWatcher.IngressWatcherReconciler)
    (env : Env) (req : Key) (w : World) (ingress : Ingress) :
  get_ingress_err env = None →
  ingresses w !! req = Some ingress →
  AnnotatedWatcher.monitoringDisabled ingress = true →
  get_monitor_err env = None →
  let o := AnnotatedWatcher.Reconcile r env req w in
  match monitors w !! req with
  | None => o = {| value := None; world := w;
                   trace := [GetIngress req; GetMonitor req] |}
  | Some m =>
    if managed m
    then trace o = [GetIngress req; GetMonitor req; DeleteMonitor m] ∧
         (∀ e, delete_err env = Some e → value o = Some e ∧ world o = w)
    else o = {| value := None; world := w;
                trace := [GetIngress req; GetMonitor req] |}
  end.
Proof.
  intros Hget Hing Hdis Hgetm. cbv zeta.
  unfold AnnotatedWatcher.Reconcile,
    AnnotatedWatcher.handleMonitorCleanupForDisabledIngress.
  unfold_calls. rewrite Hget, Hing. reduce_calls. rewrite Hdis, Hgetm.
  destruct (monitors w !! req) as [m|]; [|reflexivity].
  reduce_calls. unfold managed.
  destruct (String.eqb (map_index (Labels (Meta m)) "upbot.app/source")
                       "ingress-watcher"); cbn [negb]; [|reflexivity].
  reduce_calls. split.
  - split_cases; reflexivity.
  - intros e He. rewrite He. split; reflexivity.
Qed.

(** X17.  Clean-up after a deleted Ingress in the revision: the Monitor at the
    key is deleted exactly when it is there, managed, and annotated with
    this key as its source. *)
Lemma annotated_deleted_cleanup (r : IngressWatcher.IngressWatcherReconciler)
    (env : Env) (req : Key) (w : World) :
  get_ingress_err env = None →
  ingresses w !! req = None →
  get_monitor_err env = None →
  let o := AnnotatedWatcher.Reconcile r env req w in
  match monitors w !! req with
  | None => o = {| value := None; world := w;
                   trace := [GetIngress req; GetMonitor req] |}
  | Some m =>
    if managed m &&
       String.eqb (map_index (Annotations (Meta m)) "upbot.app/source-ingress")
                  (fst req +:+ "/" +:+ snd req)
    then trace o = [GetIngress req; GetMonitor req; DeleteMonitor m] ∧
         (∀ e, delete_err env = Some e → value o = Some e ∧ world o = w)
    else o = {| value := None; world := w;
                trace := [GetIngress req; GetMonitor req] |}
  end.
Proof.
  intros Hget Hing Hgetm. cbv zeta.
  unfold AnnotatedWatcher.Reconcile, AnnotatedWatcher.handleIngressDeletion.
  unfold_calls. rewrite Hget, Hing. reduce_calls. rewrite Hgetm.
  destruct (monitors w !! req) as [m|]; [|reflexivity].
  reduce_calls. unfold managed.
  destruct (String.eqb (map_index (Labels (Meta m)) "upbot.app/source")
                       "ingress-watcher"); cbn [negb andb]; [|reflexivity].
  destruct (String.eqb (map_index (Annotations (Meta m)) "upbot.app/source-ingress")
                       (fst req +:+ "/" +:+ snd req)); cbn [negb]; [|reflexivity].
  reduce_calls. split.
  - split_cases; reflexivity.
  - intros e He. rewrite He. split; reflexivity.
Qed.

(** A managed Monitor that already has the derived target, interval and
    type is not written by the revision. *)
Lemma annotated_in_sync_no_write (r : IngressWatcher.IngressWatcherReconciler)
    (env : Env) (m : Monitor) (ingress : Ingress) (w : World) (target : string) :
  AnnotatedWatcher.getTargetFromIngress ingress = inl target →
  Target (Spec m) = target →
  Interval (Spec m) = AnnotatedWatcher.expectedInterval r ingress →
  Type_ (Spec m) = "http"%string →
  AnnotatedWatcher.updateMonitorIfNeeded r env m ingress w =
  {| value := None; world := w; trace := [] |}.
Proof.
  intros Htarget Ht Hi Hty. unfold AnnotatedWatcher.updateMonitorIfNeeded.
  destruct (negb _); [reflexivity|].
  rewrite Htarget. destruct m as [meta [ty tg iv] st].
  cbn [Spec Type_ Target Interval] in *. subst ty tg iv.
  rewrite !String.eqb_refl. cbn [negb with_spec Spec Type_ Target Interval].
  rewrite !String.eqb_refl. reflexivity.
Qed.

(** * Further properties of the Monitor reconciler *)

Lemma Status_Add (m : Monitor) (f : string) :
  Status (AddFinalizer m f) = Status m.
Proof. unfold AddFinalizer. destruct (ContainsFinalizer m f); reflexivity. Qed.

Lemma same_but_refl (m : Monitor) : same_but_marker_and_status m m.
Proof. repeat split. Qed.

Lemma same_but_Add (m : Monitor) (f : string) :
  same_but_marker_and_status m (AddFinalizer m f).
Proof.
  unfold AddFinalizer. destruct (ContainsFinalizer m f); repeat split.
Qed.

Lemma same_but_Remove (m : Monitor) (f : string) :
  same_but_marker_and_status m (RemoveFinalizer m f).
Proof. repeat split. Qed.

Lemma same_but_status (m : Monitor) (s : MonitorStatus) :
  same_but_marker_and_status m (with_status s m).
Proof. repeat split. Qed.

Lemma touches_only_refl (req : Key) (w : World) : touches_only req w w.
Proof.
  split; [reflexivity|]. split; [reflexivity|].
  destruct (monitors w !! req) as [m|] eqn:Hm; [|reflexivity].
  left. exists m. split; [reflexivity|apply same_but_refl].
Qed.

Lemma touches_only_insert (req : Key) (w : World) (m m' : Monitor) :
  monitors w !! req = Some m →
  same_but_marker_and_status m m' →
  touches_only req w (set_monitors (<[req := m']> (monitors w)) w).
Proof.
  intros Hm Hsame. split; [reflexivity|]. split.
  - intros k Hk. cbn. apply lookup_insert_ne. congruence.
  - rewrite Hm. left. exists m'. split; [cbn; apply lookup_insert_eq|exact Hsame].
Qed.

Lemma touches_only_cleared (req : Key) (w : World) (m : Monitor) :
  monitors w !! req = Some m →
  Time_IsZero (DeletionTimestamp (Meta m)) = false →
  ContainsFinalizer m MonitorController.monitorFinalizer = true →
  touches_only req w
    (set_monitors
       (store_update req (RemoveFinalizer m MonitorController.monitorFinalizer)
                     (monitors w)) w).
Proof.
  intros Hm Hdel Hfin. split; [reflexivity|]. split.
  - intros k Hk. cbn [monitors set_monitors].
    apply lookup_store_update_ne. congruence.
  - rewrite Hm. cbn [monitors set_monitors]. rewrite lookup_store_update.
    rewrite (finalized_deleting
               (RemoveFinalizer m MonitorController.monitorFinalizer) Hdel).
    destruct (Finalizers (Meta (RemoveFinalizer m MonitorController.monitorFinalizer)))
      eqn:Hrest.
    + right. auto.
    + left. eexists. split; [reflexivity|apply same_but_Remove].
Qed.

(** A Monitor that cannot be read, and a key with no Monitor. *)
Lemma Reconcile_unreadable (env : Env) (req : Key) (w : World) (e : error) :
  get_monitor_err env = Some e →
  MonitorController.Reconcile env req w =
  {| value := IgnoreNotFound e; world := w; trace := [GetMonitor req] |}.
Proof.
  intros Hget. unfold MonitorController.Reconcile. unfold_calls.
  rewrite Hget. reflexivity.
Qed.

Lemma Reconcile_absent (env : Env) (req : Key) (w : World) :
  get_monitor_err env = None →
  monitors w !! req = None →
  MonitorController.Reconcile env req w =
  {| value := None; world := w; trace := [GetMonitor req] |}.
Proof.
  intros Hget Hm. unfold MonitorController.Reconcile. unfold_calls.
  rewrite Hget, Hm. reflexivity.
Qed.

(** Whether the external clean-up of [handleDeletion] lets it go on to
    remove the marker: [None], or the error it stops with. *)
Lemma Reconcile_deleting_marked (env : Env) (req : Key) (w : World) (m : Monitor) :
  get_monitor_err env = None →
  monitors w !! req = Some m →
  key_of (Meta m) = req →
  Time_IsZero (DeletionTimestamp (Meta m)) = false →
  ContainsFinalizer m MonitorController.monitorFinalizer = true →
  let id := ExternalID (Status m) in
  let cleared := RemoveFinalizer m MonitorController.monitorFinalizer in
  let call := if String.eqb id "" then [] else [UpbotDelete id (upbot_delete env)] in
  let stop :=
    if String.eqb id "" then None
    else match upbot_delete env with
         | (Some code, Some e) => if Z.eqb code StatusNotFound then None else Some e
         | (None, Some e) => Some e
         | (_, None) => None
         end in
  MonitorController.Reconcile env req w =
  match stop with
  | Some e => {| value := Some e; world := w; trace := GetMonitor req :: call |}
  | None =>
    {| value := update_err env;
       world := match update_err env with
                | Some _ => w
                | None => set_monitors (store_update req cleared (monitors w)) w
                end;
       trace := GetMonitor req :: call ++ [UpdateMonitor cleared] |}
  end.
Proof.
  intros Hget Hm Hkey Hdel Hfin. cbv zeta.
  rewrite (Reconcile_deleting env req w m Hget Hm Hdel).
  unfold MonitorController.handleDeletion. rewrite Hfin. cbn [negb].
  pose proof (update_cleared env req w m Hm Hkey) as Hup.
  destruct (String.eqb (ExternalID (Status m)) ""); cbn [negb].
  - unfold bind, Get_Monitor, ret. cbn [value world trace app].
    rewrite Hup. cbn [value world trace app].
    destruct (update_err env); reflexivity.
  - unfold bind, Get_Monitor, Upbot_Delete, ret. cbn [value world trace app].
    destruct (upbot_delete env) as [[code|] [e|]]; cbn [value world trace app];
      try destruct (Z.eqb code StatusNotFound);
      cbn [value world trace app]; rewrite ?Hup;
      try reflexivity; destruct (update_err env); reflexivity.
Qed.

(** X1.  A Monitor that cannot be read is left alone: the reconcile stops
    after the read, with the store as it was.  A Monitor that is not there
    (the store says NotFound) is no error; any other failure of the read is
    returned. *)
Theorem unreadable_monitor_is_left_alone (env : Env) (req : Key) (w : World)
    (e : error) :
  get_monitor_err env = Some e ∨
  (get_monitor_err env = None ∧ monitors w !! req = None ∧ e = ErrNotFound) →
  let o := MonitorController.Reconcile env req w in
  trace o = [GetMonitor req] ∧
  world o = w ∧
  value o = (if IsNotFound (Some e) then None else Some e).
Proof.
  intros [Hget | (Hget & Hm & ->)]; cbv zeta.
  - rewrite (Reconcile_unreadable env req w e Hget). destruct e; auto.
  - rewrite (Reconcile_absent env req w Hget Hm). auto.
Qed.

Lemma unreadable_monitor_is_left_alone_witness :
  let env := with_upbot_create (None, None) (quiet "") in
  let o := MonitorController.Reconcile env demo_key (world_of None None) in
  trace o = [GetMonitor demo_key] ∧ value o = None.
Proof.
  cbv zeta.
  destruct (unreadable_monitor_is_left_alone
              (with_upbot_create (None, None) (quiet "")) demo_key
              (world_of None None) ErrNotFound
              (or_intror (conj eq_refl (conj eq_refl eq_refl))))
    as (Ht & _ & Hv).
  split; [exact Ht|exact Hv].
Defined.

(** X2.  A reconcile of a key leaves every other key and every Ingress as
    they were and creates no object.  The Monitor at the key either stays,
    changed at most in its finalizers and its status (never in a name, a
    label, an annotation, an owner link, a deletion stamp or a spec), or is
    gone from the store; it is gone only when it had a deletion request and
    the reconciler's marker was the last finalizer holding it. *)
Theorem reconcile_touches_only_marker_and_status (env : Env) (req : Key)
    (w : World) :
  (∀ m, monitors w !! req = Some m → key_of (Meta m) = req) →
  touches_only req w (world (MonitorController.Reconcile env req w)).
Proof.
  intros Hwf.
  destruct (get_monitor_err env) as [e|] eqn:Hget.
  { rewrite (Reconcile_unreadable env req w e Hget). apply touches_only_refl. }
  destruct (monitors w !! req) as [m|] eqn:Hm.
  2:{ rewrite (Reconcile_absent env req w Hget Hm). apply touches_only_refl. }
  pose proof (Hwf m eq_refl) as Hkey.
  destruct (Time_IsZero (DeletionTimestamp (Meta m))) eqn:Hlive.
  - destruct (ContainsFinalizer m MonitorController.monitorFinalizer) eqn:Hfin.
    + destruct (String.eqb_spec (ExternalID (Status m)) "") as [Hid|Hid].
      * rewrite (Reconcile_armed req w m Hm Hkey Hlive Hfin env Hget Hid).
        destruct (upbot_create env) as [[[id|]|] [e|]]; cbn [world];
          try apply touches_only_refl.
        destruct (status_update_err env); [apply touches_only_refl|].
        apply (touches_only_insert req w m _ Hm), same_but_status.
      * rewrite (Reconcile_synced req w m Hm Hlive Hfin env Hget Hid).
        apply touches_only_refl.
    + rewrite (Reconcile_fresh req w m Hm Hkey Hlive env Hget Hfin). cbn [world].
      destruct (update_err env); [apply touches_only_refl|].
      apply (touches_only_insert req w m _ Hm), same_but_Add.
  - destruct (ContainsFinalizer m MonitorController.monitorFinalizer) eqn:Hfin.
    + rewrite (Reconcile_deleting_marked env req w m Hget Hm Hkey Hlive Hfin).
      destruct (if String.eqb (ExternalID (Status m)) "" then None else _);
        cbn [world]; [apply touches_only_refl|].
      destruct (update_err env); [apply touches_only_refl|].
      apply (touches_only_cleared req w m Hm Hlive Hfin).
    + rewrite (deletion_without_marker env req w m Hget Hm Hlive Hfin).
      apply touches_only_refl.
Qed.

Lemma reconcile_touches_only_marker_and_status_witness :
  let m := demo_monitor [MonitorController.monitorFinalizer] (Some 1700000000) "ext-1" in
  let w := world_of (Some plain_ingress) (Some m) in
  touches_only demo_key w (world (MonitorController.Reconcile gone_env demo_key w)) ∧
  monitors (world (MonitorController.Reconcile gone_env demo_key w)) !! demo_key = None.
Proof.
  cbv zeta. split; [|vm_compute; reflexivity].
  apply (reconcile_touches_only_marker_and_status gone_env demo_key
           (world_of (Some plain_ingress)
              (Some (demo_monitor [MonitorController.monitorFinalizer]
                                  (Some 1700000000) "ext-1")))).
  intros m Hm. vm_compute in Hm. injection Hm as <-. reflexivity.
Defined.

(** X3.  A Monitor with a deletion request is never synchronised: whatever
    its finalizers and its [externalID], the reconcile issues no create and
    no update call to Upbot and no status write, and a Monitor it writes
    back does not carry the marker (the marker is never attached to an object
    on its way out). *)
Theorem deleting_monitor_is_never_synced (env : Env) (req : Key) (w : World)
    (m : Monitor) :
  monitors w !! req = Some m →
  Time_IsZero (DeletionTimestamp (Meta m)) = false →
  let o := MonitorController.Reconcile env req w in
  existsb is_upbot_sync (trace o) = false ∧
  (∀ m', In (UpdateMonitorStatus m') (trace o) → False) ∧
  (∀ m', In (UpdateMonitor m') (trace o) →
         ContainsFinalizer m' MonitorController.monitorFinalizer = false).
Proof.
  intros Hm Hdel. cbv zeta.
  unfold MonitorController.Reconcile, MonitorController.handleDeletion.
  unfold_calls. reduce_calls.
  destruct (get_monitor_err env) as [e|].
  { cbn. repeat split; intros m' [H|[]]; discriminate. }
  rewrite Hm, Hdel. cbn [negb].
  destruct (ContainsFinalizer m MonitorController.monitorFinalizer).
  2:{ cbn. repeat split; intros m' [H|[]]; discriminate. }
  cbn [negb].
  split_cases; cbn [is_upbot_sync]; (split; [reflexivity|]); split; intros m' Hin;
    cbn in Hin;
    repeat (destruct Hin as [Hin|Hin]; [try discriminate|]); try contradiction;
    injection Hin as <-; apply ContainsFinalizer_Remove.
Qed.

Lemma deleting_monitor_is_never_synced_witness :
  let m := demo_monitor [MonitorController.monitorFinalizer] (Some 1700000000)
             "ext-1" in
  let o := MonitorController.Reconcile (quiet "") demo_key
             (world_of None (Some m)) in
  trace o = [GetMonitor demo_key;
             UpbotDelete "ext-1" (upbot_delete (quiet ""));
             UpdateMonitor (RemoveFinalizer m MonitorController.monitorFinalizer)] ∧
  existsb is_upbot_sync (trace o) = false ∧
  ContainsFinalizer (RemoveFinalizer m MonitorController.monitorFinalizer)
    MonitorController.monitorFinalizer = false.
Proof.
  cbv zeta.
  pose proof (deleting_monitor_is_never_synced (quiet "") demo_key
                (world_of None
                   (Some (demo_monitor [MonitorController.monitorFinalizer]
                            (Some 1700000000) "ext-1")))
                (demo_monitor [MonitorController.monitorFinalizer]
                   (Some 1700000000) "ext-1") eq_refl eq_refl)
    as (Hsync & _ & Hwritten).
  split; [reflexivity|]. split; [exact Hsync|].
  apply Hwritten. right. right. left. reflexivity.
Defined.

(** With collaborators that never fail, a synced Monitor gets one update per
    reconcile and the store stays as it is. *)
Lemma synced_steady_run (req : Key) (w : World) (m : Monitor) (id : string)
    (n : nat) :
  monitors w !! req = Some m →
  Time_IsZero (DeletionTimestamp (Meta m)) = true →
  ContainsFinalizer m MonitorController.monitorFinalizer = true →
  ExternalID (Status m) ≠ ""%string →
  map (fun e => trace (snd e)) (run (replicate n (steady id)) req w) =
  replicate n [GetMonitor req;
               UpbotUpdate (ExternalID (Status m)) (update_request m) None].
Proof.
  intros Hm Hlive Hfin Hid. induction n as [|n IH]; [reflexivity|].
  change (replicate (S n) (steady id)) with (steady id :: replicate n (steady id)).
  cbn [run map snd answers others steady].
  rewrite (Reconcile_synced req w m Hm Hlive Hfin (quiet id) eq_refl Hid).
  cbn [trace world upbot_update quiet]. rewrite IH. reflexivity.
Qed.

(** The reconciles of a new Monitor under collaborators that never fail. *)
Lemma steady_run_of_fresh (req : Key) (w : World) (m : Monitor)
    (id : string) (n : nat) :
  monitors w !! req = Some m →
  key_of (Meta m) = req →
  Time_IsZero (DeletionTimestamp (Meta m)) = true →
  ContainsFinalizer m MonitorController.monitorFinalizer = false →
  ExternalID (Status m) = ""%string →
  id ≠ ""%string →
  let marked := AddFinalizer m MonitorController.monitorFinalizer in
  let synced := with_status {| ExternalID := id |} marked in
  map (fun e => trace (snd e)) (run (replicate (2 + n) (steady id)) req w) =
  [GetMonitor req; UpdateMonitor marked] ::
  [GetMonitor req;
   UpbotCreate (create_request marked) (Some (Some id), None);
   UpdateMonitorStatus synced] ::
  replicate n [GetMonitor req; UpbotUpdate id (update_request synced) None].
Proof.
  intros Hm Hkey Hlive Hfresh Hid Hidne. cbv zeta.
  change (replicate (2 + n) (steady id))
    with (steady id :: steady id :: replicate n (steady id)).
  cbn [run map snd answers others steady].
  rewrite (Reconcile_fresh req w m Hm Hkey Hlive (quiet id) eq_refl Hfresh).
  cbn [trace world update_err quiet]. f_equal.
  set (marked := AddFinalizer m MonitorController.monitorFinalizer).
  set (w1 := set_monitors (<[req := marked]> (monitors w)) w).
  assert (Hm1 : monitors w1 !! req = Some marked) by apply lookup_insert_eq.
  assert (Hkey1 : key_of (Meta marked) = req)
    by (unfold marked; rewrite key_of_Add; exact Hkey).
  assert (Hlive1 : Time_IsZero (DeletionTimestamp (Meta marked)) = true)
    by (unfold marked; rewrite Deletion_Add; exact Hlive).
  assert (Hfin1 : ContainsFinalizer marked MonitorController.monitorFinalizer = true)
    by apply ContainsFinalizer_Add.
  assert (Hid1 : ExternalID (Status marked) = ""%string)
    by (unfold marked; rewrite Status_Add; exact Hid).
  rewrite (Reconcile_armed req w1 marked Hm1 Hkey1 Hlive1 Hfin1 (quiet id) eq_refl Hid1).
  cbn [upbot_create status_update_err quiet trace world]. f_equal.
  set (synced := with_status {| ExternalID := id |} marked).
  set (w2 := set_monitors (<[req := synced]> (monitors w1)) w1).
  apply (synced_steady_run req w2 synced id n).
  - apply lookup_insert_eq.
  - exact Hlive1.
  - exact Hfin1.
  - exact Hidne.
Qed.

(** X4.  The life of a new Monitor when nothing fails: the first reconcile
    attaches the marker and does nothing else, the second creates the record
    in Upbot and stores the identifier it is given, and every later one
    pushes the spec as an update under that identifier.  One create call is
    issued in all. *)
Theorem lifecycle_of_a_new_monitor (req : Key) (w : World) (m : Monitor)
    (id : string) (n : nat) :
  monitors w !! req = Some m →
  key_of (Meta m) = req →
  Time_IsZero (DeletionTimestamp (Meta m)) = true →
  ContainsFinalizer m MonitorController.monitorFinalizer = false →
  ExternalID (Status m) = ""%string →
  id ≠ ""%string →
  let marked := AddFinalizer m MonitorController.monitorFinalizer in
  let synced := with_status {| ExternalID := id |} marked in
  map (fun e => trace (snd e)) (run (replicate (2 + n) (steady id)) req w) =
  [GetMonitor req; UpdateMonitor marked] ::
  [GetMonitor req;
   UpbotCreate (create_request marked) (Some (Some id), None);
   UpdateMonitorStatus synced] ::
  replicate n [GetMonitor req; UpbotUpdate id (update_request synced) None].
Proof. exact (steady_run_of_fresh req w m id n). Qed.

Lemma lifecycle_of_a_new_monitor_witness :
  map (fun e => trace (snd e))
      (run (replicate 3 (steady "ext-1")) demo_key
           (world_of None (Some fresh_monitor))) =
  [ [GetMonitor demo_key; UpdateMonitor armed_monitor];
    [GetMonitor demo_key;
     UpbotCreate (create_request armed_monitor) (Some (Some "ext-1"), None);
     UpdateMonitorStatus synced_monitor];
    [GetMonitor demo_key;
     UpbotUpdate "ext-1" (update_request synced_monitor) None] ].
Proof.
  exact (lifecycle_of_a_new_monitor demo_key (world_of None (Some fresh_monitor))
           fresh_monitor "ext-1" 1 eq_refl eq_refl eq_refl eq_refl eq_refl
           ltac:(discriminate)).
Defined.

(** X5.  An armed Monitor becomes synced in one way only: the create call
    hands back an identifier that is not empty and the store takes the
    status write.  When the create succeeds with an identifier and the status
    write fails, the error is returned, the stored [externalID] stays empty
    and the identifier is lost; the next reconcile then issues the create
    again, and Upbot has registered the Monitor twice. *)
Theorem identifier_lost_when_status_write_fails (env : Env) (req : Key)
    (w : World) (m : Monitor) :
  get_monitor_err env = None →
  monitors w !! req = Some m →
  key_of (Meta m) = req →
  Time_IsZero (DeletionTimestamp (Meta m)) = true →
  ContainsFinalizer m MonitorController.monitorFinalizer = true →
  ExternalID (Status m) = ""%string →
  let o := MonitorController.Reconcile env req w in
  ((∃ m', monitors (world o) !! req = Some m' ∧ ExternalID (Status m') ≠ ""%string) ↔
   (∃ id, id ≠ ""%string ∧ upbot_create env = (Some (Some id), None) ∧
          status_update_err env = None)) ∧
  (∀ id e,
     upbot_create env = (Some (Some id), None) →
     status_update_err env = Some e →
     value o = Some e ∧
     world o = w ∧
     registered (trace o) = [create_request m] ∧
     ∀ env', get_monitor_err env' = None → snd (upbot_create env') = None →
       registered (trace o ++ trace (MonitorController.Reconcile env' req (world o))) =
       [create_request m; create_request m]).
Proof.
  intros Hget Hm Hkey Hlive Hfin Hid. cbv zeta.
  pose proof (Reconcile_armed req w m Hm Hkey Hlive Hfin) as Harmed.
  rewrite (Harmed env Hget Hid). split.
  - destruct (upbot_create env) as [[[id|]|] [e|]] eqn:Hans; cbn [world];
      try (split; [intros (m' & Hm' & Hne); rewrite Hm in Hm';
                   injection Hm' as <-; contradiction
                  |intros (id' & _ & Heq & _); discriminate]).
    destruct (status_update_err env) as [e|] eqn:Hst.
    + split; [intros (m' & Hm' & Hne); rewrite Hm in Hm';
              injection Hm' as <-; contradiction
             |intros (id' & _ & _ & Heq); discriminate].
    + split.
      * intros (m' & Hm' & Hne). cbn in Hm'. rewrite lookup_insert_eq in Hm'.
        injection Hm' as <-. exists id. auto.
      * intros (id' & Hne & Heq & _). injection Heq as <-.
        eexists. split; [cbn; apply lookup_insert_eq|exact Hne].
  - intros id e Hans Hst. rewrite Hans, Hst. cbn [value world trace].
    split; [reflexivity|]. split; [reflexivity|]. split; [reflexivity|].
    intros env' Hget' Hok. rewrite (Harmed env' Hget' Hid).
    destruct (upbot_create env') as [[[id'|]|] [e'|]]; cbn [snd] in Hok;
      try discriminate; reflexivity.
Qed.

Lemma identifier_lost_when_status_write_fails_witness :
  let o := MonitorController.Reconcile status_down_env demo_key
             (world_of None (Some armed_monitor)) in
  value o = Some (ErrStore "conflict") ∧
  registered (trace o ++
              trace (MonitorController.Reconcile status_down_env demo_key (world o))) =
  [create_request armed_monitor; create_request armed_monitor].
Proof.
  cbv zeta.
  destruct (identifier_lost_when_status_write_fails status_down_env
              demo_key (world_of None (Some armed_monitor)) armed_monitor
              eq_refl eq_refl eq_refl eq_refl eq_refl eq_refl) as [_ H].
  destruct (H "ext-1"%string (ErrStore "conflict") eq_refl eq_refl)
    as (Hv & _ & _ & Hnext).
  split; [exact Hv|]. exact (Hnext status_down_env eq_refl eq_refl).
Defined.

(** X6.  Clean-up is done once.  After a reconcile that has removed the
    marker from a Monitor on its way out (no [externalID], or an external
    delete that succeeded or answered 404, and a store that took the write),
    a further reconcile of the key does one read and nothing more (the
    Monitor is gone from the store, or is there without the marker): no
    second external delete, no write. *)
Theorem cleanup_is_done_once (env env' : Env) (req : Key) (w : World)
    (m : Monitor) :
  get_monitor_err env = None →
  monitors w !! req = Some m →
  key_of (Meta m) = req →
  Time_IsZero (DeletionTimestamp (Meta m)) = false →
  ContainsFinalizer m MonitorController.monitorFinalizer = true →
  update_err env = None →
  (ExternalID (Status m) = ""%string ∨
   snd (upbot_delete env) = None ∨
   fst (upbot_delete env) = Some StatusNotFound) →
  get_monitor_err env' = None →
  let o := MonitorController.Reconcile env req w in
  value o = None ∧
  MonitorController.Reconcile env' req (world o) =
  {| value := None; world := world o; trace := [GetMonitor req] |}.
Proof.
  intros Hget Hm Hkey Hdel Hfin Hup Hsettled Hget'. cbv zeta.
  rewrite (Reconcile_deleting_marked env req w m Hget Hm Hkey Hdel Hfin).
  assert (Hstop :
    (if String.eqb (ExternalID (Status m)) "" then None
     else match upbot_delete env with
          | (Some code, Some e) => if Z.eqb code StatusNotFound then None else Some e
          | (None, Some e) => Some e
          | (_, None) => None
          end) = None).
  { destruct (String.eqb_spec (ExternalID (Status m)) "") as [|Hne]; [reflexivity|].
    destruct Hsettled as [Hid | [Hok | H404]]; [contradiction| |].
    - destruct (upbot_delete env) as [[code|] [e|]]; cbn [snd] in Hok;
        try discriminate; reflexivity.
    - destruct (upbot_delete env) as [[code|] [e|]]; cbn [fst] in H404;
        try discriminate; try reflexivity.
      injection H404 as ->. reflexivity. }
  rewrite Hstop, Hup. cbn [value world]. split; [reflexivity|].
  set (w1 := set_monitors _ w).
  assert (Hm1 : monitors w1 !! req =
                if finalized (RemoveFinalizer m MonitorController.monitorFinalizer)
                then None
                else Some (RemoveFinalizer m MonitorController.monitorFinalizer))
    by apply lookup_store_update.
  destruct (finalized (RemoveFinalizer m MonitorController.monitorFinalizer)).
  - apply (Reconcile_absent env' req w1 Hget' Hm1).
  - apply (deletion_without_marker env' req w1
             (RemoveFinalizer m MonitorController.monitorFinalizer) Hget' Hm1).
    + exact Hdel.
    + apply ContainsFinalizer_Remove.
Qed.

Lemma cleanup_is_done_once_witness :
  let m := demo_monitor [MonitorController.monitorFinalizer] (Some 1700000000) "ext-1" in
  let o := MonitorController.Reconcile gone_env demo_key (world_of None (Some m)) in
  MonitorController.Reconcile (quiet "") demo_key (world o) =
  {| value := None; world := world o; trace := [GetMonitor demo_key] |}.
Proof.
  cbv zeta.
  exact (proj2 (cleanup_is_done_once gone_env (quiet "") demo_key
                  (world_of None (Some (demo_monitor [MonitorController.monitorFinalizer]
                                                     (Some 1700000000) "ext-1")))
                  (demo_monitor [MonitorController.monitorFinalizer]
                                (Some 1700000000) "ext-1")
                  eq_refl eq_refl eq_refl eq_refl eq_refl eq_refl
                  (or_intror (or_intror eq_refl)) eq_refl)).
Defined.

(** * Further properties of the watcher *)

(** The reconcile that creates: the Ingress is read, no Monitor is at the
    key, the target derives and the owner link can be set. *)
Lemma watcher_Reconcile_creates (r : IngressWatcher.IngressWatcherReconciler)
    (env : Env) (req : Key) (w : World) (ingress : Ingress) (target : string) :
  get_ingress_err env = None →
  ingresses w !! req = Some ingress →
  key_of (IMeta ingress) = req →
  get_monitor_err env = None →
  monitors w !! req = None →
  IngressWatcher.getTargetFromIngress ingress = inl target →
  set_owner_err env = None →
  ∃ mon,
    IngressWatcher.Reconcile r env req w =
    {| value := create_err env;
       world := match create_err env with
                | Some _ => w
                | None => set_monitors (<[req := mon]> (monitors w)) w
                end;
       trace := [GetIngress req; GetMonitor req; CreateMonitor mon] |} ∧
    key_of (Meta mon) = req ∧
    Name (Meta mon) = Name (IMeta ingress) ∧
    Spec mon = {| Type_ := "http"; Target := target;
                  Interval := if String.eqb (IngressWatcher.r_Interval r) ""
                              then "30" else IngressWatcher.r_Interval r |} ∧
    Status mon = {| ExternalID := "" |} ∧
    Finalizers (Meta mon) = [] ∧
    DeletionTimestamp (Meta mon) = None.
Proof.
  intros Hgeti Hing Hkey Hgetm Hm Htarget Hown.
  unfold IngressWatcher.Reconcile. unfold_calls. rewrite Hgeti, Hing.
  reduce_calls. rewrite Hgetm, Hm. reduce_calls.
  unfold IngressWatcher.createMonitorFromIngress, SetControllerReference.
  rewrite Htarget, Hown. unfold_calls.
  set (mon := with_owners _ _).
  assert (Hkm : key_of (Meta mon) = req) by exact Hkey.
  exists mon. rewrite Hkm, Hm.
  split; [destruct (create_err env); reflexivity|].
  repeat split; try reflexivity; exact Hkey.
Qed.

(** X7.  A failure of a read other than NotFound (of the Ingress, or of the
    Monitor once the Ingress has been read) is returned to the caller, and
    the watcher writes nothing. *)
Theorem watcher_read_failure_is_returned (r : IngressWatcher.IngressWatcherReconciler)
    (env : Env) (req : Key) (w : World) (e : error) :
  e ≠ ErrNotFound →
  get_ingress_err env = Some e ∨
  (get_ingress_err env = None ∧ is_Some (ingresses w !! req) ∧
   get_monitor_err env = Some e) →
  let o := IngressWatcher.Reconcile r env req w in
  value o = Some e ∧ world o = w ∧ existsb is_write (trace o) = false.
Proof.
  intros Hne Hcase. cbv zeta. unfold IngressWatcher.Reconcile. unfold_calls.
  destruct Hcase as [Hget | (Hget & [ingress Hing] & Hgetm)].
  - rewrite Hget. destruct e; try contradiction; cbn; auto.
  - rewrite Hget, Hing. reduce_calls. rewrite Hgetm.
    destruct e; try contradiction; cbn; auto.
Qed.

Lemma watcher_read_failure_is_returned_witness :
  value (IngressWatcher.Reconcile plain_watcher ingress_down_env demo_key
           (world_of (Some plain_ingress) None)) = Some (ErrStore "timeout").
Proof.
  exact (proj1 (watcher_read_failure_is_returned plain_watcher ingress_down_env
                  demo_key (world_of (Some plain_ingress) None)
                  (ErrStore "timeout") ltac:(discriminate) (or_introl eq_refl))).
Defined.

(** X8.  A Monitor that is already at the key is never touched by this
    watcher, whoever made it and whatever it says: the reconcile reads the
    Ingress and the Monitor and returns, even when the Monitor's spec differs
    from what the Ingress derives or the Ingress has no usable rule. *)
Theorem watcher_leaves_existing_monitor (r : IngressWatcher.IngressWatcherReconciler)
    (env : Env) (req : Key) (w : World) (ingress : Ingress) (m : Monitor) :
  get_ingress_err env = None →
  ingresses w !! req = Some ingress →
  get_monitor_err env = None →
  monitors w !! req = Some m →
  IngressWatcher.Reconcile r env req w =
  {| value := None; world := w; trace := [GetIngress req; GetMonitor req] |}.
Proof.
  intros Hgeti Hing Hgetm Hm. unfold IngressWatcher.Reconcile. unfold_calls.
  rewrite Hgeti, Hing. reduce_calls. rewrite Hgetm, Hm. reflexivity.
Qed.

Lemma watcher_leaves_existing_monitor_witness :
  let stale := demo_monitor [] None "" in
  IngressWatcher.Reconcile plain_watcher (quiet "") demo_key
    (world_of (Some ruleless_ingress) (Some stale)) =
  {| value := None; world := world_of (Some ruleless_ingress) (Some stale);
     trace := [GetIngress demo_key; GetMonitor demo_key] |}.
Proof.
  cbv zeta.
  exact (watcher_leaves_existing_monitor plain_watcher (quiet "") demo_key
           (world_of (Some ruleless_ingress) (Some (demo_monitor [] None "")))
           ruleless_ingress (demo_monitor [] None "")
           eq_refl eq_refl eq_refl eq_refl).
Defined.

(** X9.  Creating the Monitor for an Ingress whose target derives, with no
    Monitor at the key.  When the owner link cannot be set the error is
    returned and no create call is issued.  Otherwise one create call is
    issued and its result is the reconcile's: a refused create leaves the
    store as it was; an accepted one stores, under the Ingress's key, a
    Monitor of type http with the derived target and the default interval,
    an empty status, no finalizer and no deletion stamp, and the next
    reconcile of the key then writes nothing. *)
Theorem watcher_create_outcomes (r : IngressWatcher.IngressWatcherReconciler)
    (env : Env) (req : Key) (w : World) (ingress : Ingress) (target : string) :
  get_ingress_err env = None →
  ingresses w !! req = Some ingress →
  key_of (IMeta ingress) = req →
  get_monitor_err env = None →
  monitors w !! req = None →
  IngressWatcher.getTargetFromIngress ingress = inl target →
  let o := IngressWatcher.Reconcile r env req w in
  (∀ e, set_owner_err env = Some e →
     value o = Some e ∧ world o = w ∧
     trace o = [GetIngress req; GetMonitor req]) ∧
  (set_owner_err env = None →
     ∃ mon,
       trace o = [GetIngress req; GetMonitor req; CreateMonitor mon] ∧
       value o = create_err env ∧
       (create_err env ≠ None → world o = w) ∧
       (create_err env = None →
          monitors (world o) !! req = Some mon ∧
          Spec mon = {| Type_ := "http"; Target := target;
                        Interval := if String.eqb (IngressWatcher.r_Interval r) ""
                                    then "30" else IngressWatcher.r_Interval r |} ∧
          ExternalID (Status mon) = ""%string ∧
          Finalizers (Meta mon) = [] ∧
          DeletionTimestamp (Meta mon) = None ∧
          ∀ env', get_ingress_err env' = None → get_monitor_err env' = None →
            IngressWatcher.Reconcile r env' req (world o) =
            {| value := None; world := world o;
               trace := [GetIngress req; GetMonitor req] |})).
Proof.
  intros Hgeti Hing Hkey Hgetm Hm Htarget. cbv zeta. split.
  - intros e Hown. unfold IngressWatcher.Reconcile. unfold_calls.
    rewrite Hgeti, Hing. reduce_calls. rewrite Hgetm, Hm. reduce_calls.
    unfold IngressWatcher.createMonitorFromIngress, SetControllerReference.
    rewrite Htarget, Hown. cbn. auto.
  - intros Hown.
    destruct (watcher_Reconcile_creates r env req w ingress target
                Hgeti Hing Hkey Hgetm Hm Htarget Hown)
      as (mon & -> & Hkm & Hname & Hspec & Hst & Hfin & Hdel).
    exists mon. cbn [trace value world].
    split; [reflexivity|]. split; [reflexivity|]. split.
    + destruct (create_err env); [reflexivity|congruence].
    + intros Hok. rewrite Hok. cbn [monitors set_monitors].
      split; [apply lookup_insert_eq|]. split; [exact Hspec|].
      split; [rewrite Hst; reflexivity|]. split; [exact Hfin|].
      split; [exact Hdel|].
      intros env' Hgeti' Hgetm'.
      unfold IngressWatcher.Reconcile. unfold_calls. cbn [ingresses monitors].
      rewrite Hgeti', Hing. reduce_calls. rewrite Hgetm', lookup_insert_eq.
      reflexivity.
Qed.

Lemma watcher_create_outcomes_witness :
  let o := IngressWatcher.Reconcile default_watcher (quiet "") demo_key
             (world_of (Some plain_ingress) None) in
  ∃ mon,
    trace o = [GetIngress demo_key; GetMonitor demo_key; CreateMonitor mon] ∧
    monitors (world o) !! demo_key = Some mon ∧
    Spec mon = {| Type_ := "http"; Target := "http://myapp.example.com";
                  Interval := "30" |}.
Proof.
  cbv zeta.
  destruct (watcher_create_outcomes default_watcher (quiet "") demo_key
              (world_of (Some plain_ingress) None) plain_ingress
              "http://myapp.example.com" eq_refl eq_refl eq_refl eq_refl eq_refl
              eq_refl) as [_ H].
  destruct (H eq_refl) as (mon & Ht & _ & _ & Hok).
  destruct (Hok eq_refl) as (Hs & Hspec & _).
  exists mon. split; [exact Ht|]. split; [exact Hs|exact Hspec].
Defined.

(** X10.  From an Ingress to the request Upbot receives.  The watcher
    creates the Monitor for an Ingress whose target derives; the Monitor
    reconciler then attaches its marker in a first reconcile and, in the
    second, registers with Upbot exactly one record: the Ingress's name, type
    http, the derived target, the default interval and no retry. *)
Theorem route_reaches_upbot (r : IngressWatcher.IngressWatcherReconciler)
    (req : Key) (w : World) (ingress : Ingress) (target id : string) :
  ingresses w !! req = Some ingress →
  key_of (IMeta ingress) = req →
  monitors w !! req = None →
  IngressWatcher.getTargetFromIngress ingress = inl target →
  id ≠ ""%string →
  let w1 := world (IngressWatcher.Reconcile r (quiet id) req w) in
  registered
    (concat (map (fun e => trace (snd e)) (run (replicate 2 (steady id)) req w1))) =
  [ {| cr_Name := Name (IMeta ingress);
       cr_Type := "http";
       cr_Target := target;
       cr_Interval := if String.eqb (IngressWatcher.r_Interval r) ""
                      then "30" else IngressWatcher.r_Interval r;
       cr_RetryCount := 0 |} ].
Proof.
  intros Hing Hkey Hm Htarget Hid. cbv zeta.
  destruct (watcher_Reconcile_creates r (quiet id) req w ingress target
              eq_refl Hing Hkey eq_refl Hm Htarget eq_refl)
    as (mon & -> & Hkm & Hname & Hspec & Hst & Hfin & Hdel).
  cbn [world create_err quiet].
  rewrite (steady_run_of_fresh req _ mon id 0).
  - cbn [replicate concat app registered].
    unfold create_request.
    destruct (same_but_Add mon MonitorController.monitorFinalizer)
      as (Hn & _ & _ & _ & _ & _ & _ & Hs).
    rewrite Hn, Hs, Hname, Hspec. reflexivity.
  - apply lookup_insert_eq.
  - exact Hkm.
  - rewrite Hdel. reflexivity.
  - unfold ContainsFinalizer. rewrite Hfin. reflexivity.
  - rewrite Hst. reflexivity.
  - exact Hid.
Qed.

Lemma route_reaches_upbot_witness :
  let w1 := world (IngressWatcher.Reconcile default_watcher (quiet "ext-1") demo_key
                     (world_of (Some plain_ingress) None)) in
  registered
    (concat (map (fun e => trace (snd e))
                 (run (replicate 2 (steady "ext-1")) demo_key w1))) =
  [ {| cr_Name := "my-app"; cr_Type := "http";
       cr_Target := "http://myapp.example.com"; cr_Interval := "30";
       cr_RetryCount := 0 |} ].
Proof.
  exact (route_reaches_upbot default_watcher demo_key
           (world_of (Some plain_ingress) None) plain_ingress
           "http://myapp.example.com" "ext-1" eq_refl eq_refl eq_refl eq_refl
           ltac:(discriminate)).
Defined.

(** * Further properties of the annotation-aware revision *)

(** X11.  Ownership.  A Monitor without the label
    [upbot.app/source: ingress-watcher] is never written by the revision:
    whether the Ingress is gone, disabled, enabled or unreadable, and whatever
    it derives, the reconcile issues no create, update or delete and leaves
    the store as it was. *)
Theorem unmanaged_monitor_is_never_written
    (r : IngressWatcher.IngressWatcherReconciler) (env : Env) (req : Key)
    (w : World) (m : Monitor) :
  get_monitor_err env = None →
  monitors w !! req = Some m →
  managed m = false →
  let o := AnnotatedWatcher.Reconcile r env req w in
  world o = w ∧ existsb is_write (trace o) = false.
Proof.
  intros Hgetm Hm Hun. cbv zeta. unfold managed in Hun.
  unfold AnnotatedWatcher.Reconcile, AnnotatedWatcher.handleIngressDeletion,
    AnnotatedWatcher.handleMonitorCleanupForDisabledIngress,
    AnnotatedWatcher.updateMonitorIfNeeded.
  unfold_calls. reduce_calls.
  destruct (get_ingress_err env) as [e|].
  - destruct e; reduce_calls; rewrite ?Hgetm, ?Hm; reduce_calls;
      rewrite ?Hun; cbn; auto.
  - destruct (ingresses w !! req) as [ingress|]; reduce_calls.
    + destruct (AnnotatedWatcher.monitoringDisabled ingress);
        reduce_calls; rewrite Hgetm, Hm; reduce_calls; rewrite Hun; cbn; auto.
    + rewrite Hgetm, Hm. reduce_calls. rewrite Hun. cbn. auto.
Qed.

Lemma unmanaged_monitor_is_never_written_witness :
  let mine :=
    {| Meta := demo_meta ∅ ∅ [] None;
       Spec := {| Type_ := "tcp"; Target := "db.internal:5432"; Interval := "60" |};
       Status := {| ExternalID := "" |} |} in
  let w := world_of (Some disabled_ingress) (Some mine) in
  world (AnnotatedWatcher.Reconcile plain_watcher (quiet "") demo_key w) = w.
Proof.
  cbv zeta.
  exact (proj1 (unmanaged_monitor_is_never_written plain_watcher (quiet "") demo_key
                  (world_of (Some disabled_ingress)
                     (Some {| Meta := demo_meta ∅ ∅ [] None;
                              Spec := {| Type_ := "tcp"; Target := "db.internal:5432";
                                         Interval := "60" |};
                              Status := {| ExternalID := "" |} |}))
                  _ eq_refl eq_refl eq_refl)).
Defined.

(** [updateMonitorIfNeeded] on a managed Monitor, for an Ingress whose target
    derives: nothing when the three fields agree, else one update of the
    Monitor with the derived spec. *)
Lemma updateMonitorIfNeeded_managed (r : IngressWatcher.IngressWatcherReconciler)
    (env : Env) (m : Monitor) (ingress : Ingress) (w : World) (target : string) :
  managed m = true →
  AnnotatedWatcher.getTargetFromIngress ingress = inl target →
  let desired := {| Type_ := "http"; Target := target;
                    Interval := AnnotatedWatcher.expectedInterval r ingress |} in
  AnnotatedWatcher.updateMonitorIfNeeded r env m ingress w =
  if String.eqb (Target (Spec m)) target
     && String.eqb (Interval (Spec m)) (AnnotatedWatcher.expectedInterval r ingress)
     && String.eqb (Type_ (Spec m)) "http"
  then {| value := None; world := w; trace := [] |}
  else {| value := value (Update env (with_spec desired m) w);
          world := world (Update env (with_spec desired m) w);
          trace := trace (Update env (with_spec desired m) w) |}.
Proof.
  intros Hman Htarget. cbv zeta. unfold managed in Hman.
  unfold AnnotatedWatcher.updateMonitorIfNeeded. rewrite Hman, Htarget.
  cbn [negb]. destruct m as [meta [ty tg iv] st].
  cbn [Spec Type_ Target Interval with_spec].
  destruct (String.eqb_spec tg target) as [->|Htg];
    destruct (String.eqb_spec iv (AnnotatedWatcher.expectedInterval r ingress))
      as [->|Hiv];
    destruct (String.eqb_spec ty "http") as [->|Hty];
    cbn [negb andb with_spec Spec Type_ Target Interval Meta Status];
    rewrite ?String.eqb_refl; cbn [negb];
    try (rewrite (proj2 (String.eqb_neq _ _) Hiv));
    try (rewrite (proj2 (String.eqb_neq _ _) Hty));
    cbn [negb with_spec Spec Type_ Target Interval Meta Status];
    rewrite ?String.eqb_refl; cbn [negb];
    try (rewrite (proj2 (String.eqb_neq _ _) Hty));
    cbn [negb with_spec Spec Type_ Target Interval Meta Status];
    try reflexivity;
    unfold bind, ret, with_spec;
    cbn [Meta Spec Status Type_ Target Interval];
    match goal with
    | |- context [Update env ?x w] => destruct (Update env x w) as [[e|] w' t]
    end; cbn [value world trace]; rewrite ?app_nil_r; reflexivity.
Qed.

(** The reconcile of an enabled Ingress with a Monitor at the key is the two
    reads followed by [updateMonitorIfNeeded]. *)
Lemma annotated_Reconcile_existing (r : IngressWatcher.IngressWatcherReconciler)
    (env : Env) (req : Key) (w : World) (ingress : Ingress) (m : Monitor) :
  get_ingress_err env = None →
  ingresses w !! req = Some ingress →
  AnnotatedWatcher.monitoringDisabled ingress = false →
  get_monitor_err env = None →
  monitors w !! req = Some m →
  AnnotatedWatcher.Reconcile r env req w =
  {| value := value (AnnotatedWatcher.updateMonitorIfNeeded r env m ingress w);
     world := world (AnnotatedWatcher.updateMonitorIfNeeded r env m ingress w);
     trace := GetIngress req :: GetMonitor req ::
              trace (AnnotatedWatcher.updateMonitorIfNeeded r env m ingress w) |}.
Proof.
  intros Hgeti Hing Hen Hgetm Hm. unfold AnnotatedWatcher.Reconcile.
  unfold bind, Get_Ingress, Get_Monitor. rewrite Hgeti, Hing.
  cbn [value world trace app]. rewrite Hen. cbn [value world trace app].
  rewrite Hgetm, Hm. reflexivity.
Qed.

Lemma in_sync_iff (m : Monitor) (target interval : string) :
  String.eqb (Target (Spec m)) target && String.eqb (Interval (Spec m)) interval
    && String.eqb (Type_ (Spec m)) "http" = true ↔
  Spec m = {| Type_ := "http"; Target := target; Interval := interval |}.
Proof.
  destruct m as [meta [ty tg iv] st]. cbn [Spec Type_ Target Interval].
  rewrite !andb_true_iff, !String.eqb_eq. split.
  - intros [[-> ->] ->]. reflexivity.
  - intros [= -> -> ->]. auto.
Qed.

(** X12.  A managed Monitor follows its Ingress.  For an enabled Ingress
    whose target derives: a managed Monitor whose type, target and interval
    are the derived ones is not written; any other managed Monitor gets one
    update that sets exactly these three fields (metadata and status are
    kept), and once the store has taken it the next reconcile writes
    nothing.  (A Monitor with a deletion request and no finalizer, which the
    platform never keeps, is removed by that update instead of stored.) *)
Theorem managed_monitor_follows_the_ingress
    (r : IngressWatcher.IngressWatcherReconciler) (env : Env) (req : Key)
    (w : World) (ingress : Ingress) (m : Monitor) (target : string) :
  get_ingress_err env = None →
  ingresses w !! req = Some ingress →
  AnnotatedWatcher.monitoringDisabled ingress = false →
  get_monitor_err env = None →
  monitors w !! req = Some m →
  key_of (Meta m) = req →
  managed m = true →
  AnnotatedWatcher.getTargetFromIngress ingress = inl target →
  let desired := {| Type_ := "http"; Target := target;
                    Interval := AnnotatedWatcher.expectedInterval r ingress |} in
  let o := AnnotatedWatcher.Reconcile r env req w in
  (Spec m = desired →
     o = {| value := None; world := w;
            trace := [GetIngress req; GetMonitor req] |}) ∧
  (Spec m ≠ desired →
     trace o = [GetIngress req; GetMonitor req; UpdateMonitor (with_spec desired m)] ∧
     value o = update_err env ∧
     (update_err env ≠ None → world o = w) ∧
     (update_err env = None →
        if finalized m then monitors (world o) !! req = None
        else
          monitors (world o) !! req = Some (with_spec desired m) ∧
          ∀ env', get_ingress_err env' = None → get_monitor_err env' = None →
            AnnotatedWatcher.Reconcile r env' req (world o) =
            {| value := None; world := world o;
               trace := [GetIngress req; GetMonitor req] |})).
Proof.
  intros Hgeti Hing Hen Hgetm Hm Hkey Hman Htarget. cbv zeta.
  rewrite (annotated_Reconcile_existing r env req w ingress m Hgeti Hing Hen Hgetm Hm).
  pose proof (updateMonitorIfNeeded_managed r env m ingress w target Hman Htarget)
    as Hupd. cbv zeta in Hupd. rewrite Hupd. clear Hupd.
  pose proof (in_sync_iff m target (AnnotatedWatcher.expectedInterval r ingress))
    as Hsync.
  destruct (String.eqb (Target (Spec m)) target
            && String.eqb (Interval (Spec m)) (AnnotatedWatcher.expectedInterval r ingress)
            && String.eqb (Type_ (Spec m)) "http").
  - split; [reflexivity|]. intros Hne. destruct Hne. apply Hsync. reflexivity.
  - split; [intros Heq; apply Hsync in Heq; discriminate|]. intros _.
    cbn [value world trace]. unfold Update.
    cbn [Meta with_spec]. rewrite Hkey, Hm. unfold store_update.
    change (finalized (with_status (Status m) _)) with (finalized m).
    destruct (update_err env) as [e|] eqn:Hup; cbn [value world trace].
    + repeat split; intros; congruence.
    + split; [reflexivity|]. split; [reflexivity|].
      split; [intros; congruence|]. intros _.
      destruct (finalized m); [apply lookup_delete_eq|].
      split; [apply lookup_insert_eq|].
      intros env' Hgeti' Hgetm'.
      set (desired := {| Type_ := "http"; Target := target;
                         Interval := AnnotatedWatcher.expectedInterval r ingress |}).
      set (w1 := set_monitors _ w).
      assert (Hm1 : monitors w1 !! req = Some (with_spec desired m))
        by apply lookup_insert_eq.
      rewrite (annotated_Reconcile_existing r env' req w1 ingress
                 (with_spec desired m) Hgeti' Hing Hen Hgetm' Hm1).
      pose proof (updateMonitorIfNeeded_managed r env' (with_spec desired m)
                    ingress w1 target Hman Htarget) as Hupd.
      cbv zeta in Hupd. rewrite Hupd.
      cbn [Spec with_spec Target Interval Type_ desired].
      rewrite !String.eqb_refl. reflexivity.
Qed.

Lemma managed_monitor_follows_the_ingress_witness :
  let o := AnnotatedWatcher.Reconcile default_watcher (quiet "") demo_key
             (world_of (Some health_ingress) (Some owned_monitor)) in
  ∃ m, monitors (world o) !! demo_key = Some m ∧
       Spec m = {| Type_ := "http"; Target := "http://myapp.example.com/health";
                   Interval := "30" |}.
Proof.
  cbv zeta.
  destruct (managed_monitor_follows_the_ingress default_watcher (quiet "") demo_key
              (world_of (Some health_ingress) (Some owned_monitor))
              health_ingress owned_monitor "http://myapp.example.com/health"
              eq_refl eq_refl eq_refl eq_refl eq_refl eq_refl eq_refl eq_refl)
    as [_ H].
  destruct (H ltac:(discriminate)) as (_ & _ & _ & Hok).
  destruct (Hok eq_refl) as [Hs _].
  eexists. split; [exact Hs|reflexivity].
Defined.

Lemma annotated_disabled_cleanup_witness :
  trace (AnnotatedWatcher.Reconcile plain_watcher (quiet "") demo_key
           (world_of (Some disabled_ingress) (Some owned_monitor))) =
  [GetIngress demo_key; GetMonitor demo_key; DeleteMonitor owned_monitor].
Proof.
  exact (proj1 (annotated_disabled_cleanup plain_watcher (quiet "") demo_key
                  (world_of (Some disabled_ingress) (Some owned_monitor))
                  disabled_ingress eq_refl eq_refl eq_refl eq_refl)).
Defined.

Lemma annotated_deleted_cleanup_witness :
  trace (AnnotatedWatcher.Reconcile plain_watcher (quiet "") demo_key
           (world_of None (Some owned_monitor))) =
  [GetIngress demo_key; GetMonitor demo_key; DeleteMonitor owned_monitor].
Proof.
  exact (proj1 (annotated_deleted_cleanup plain_watcher (quiet "") demo_key
                  (world_of None (Some owned_monitor)) eq_refl eq_refl eq_refl)).
Defined.






(** The reconcile of the revision that creates. *)
Lemma annotated_Reconcile_creates (r : IngressWatcher.IngressWatcherReconciler)
    (env : Env) (req : Key) (w : World) (ingress : Ingress) (target : string) :
  get_ingress_err env = None →
  ingresses w !! req = Some ingress →
  key_of (IMeta ingress) = req →
  AnnotatedWatcher.monitoringDisabled ingress = false →
  get_monitor_err env = None →
  monitors w !! req = None →
  AnnotatedWatcher.getTargetFromIngress ingress = inl target →
  set_owner_err env = None →
  ∃ mon,
    AnnotatedWatcher.Reconcile r env req w =
    {| value := create_err env;
       world := match create_err env with
                | Some _ => w
                | None => set_monitors (<[req := mon]> (monitors w)) w
                end;
       trace := [GetIngress req; GetMonitor req; CreateMonitor mon] |} ∧
    key_of (Meta mon) = req ∧
    managed mon = true ∧
    map_index (Annotations (Meta mon)) "upbot.app/source-ingress" =
      fst req +:+ "/" +:+ snd req ∧
    Spec mon = {| Type_ := "http"; Target := target;
                  Interval := AnnotatedWatcher.expectedInterval r ingress |} ∧
    Finalizers (Meta mon) = [] ∧
    OwnerReferences (Meta mon) = [owner_link ingress].
Proof.
  intros Hgeti Hing Hkey Hen Hgetm Hm Htarget Hown.
  unfold AnnotatedWatcher.Reconcile. unfold_calls. rewrite Hgeti, Hing.
  reduce_calls. rewrite Hen, Hgetm, Hm. reduce_calls.
  unfold AnnotatedWatcher.createMonitorFromIngress, SetControllerReference.
  rewrite Htarget, Hown. unfold_calls.
  set (mon := with_owners _ _).
  assert (Hkm : key_of (Meta mon) = req) by exact Hkey.
  exists mon. rewrite Hkm, Hm.
  split; [destruct (create_err env); reflexivity|].
  split; [reflexivity|]. split; [vm_compute; reflexivity|].
  split; [|repeat split; reflexivity].
  subst req. unfold map_index, mon. cbn [Meta with_owners Annotations key_of fst snd].
  rewrite lookup_insert_ne by discriminate. rewrite lookup_singleton_eq.
  reflexivity.
Qed.

(** X14.  What the revision creates it also cleans up.  The Monitor created
    for an enabled Ingress carries the ownership label and names the
    Ingress's key as its source; when the Ingress is then removed from the
    store, the next reconcile of the key deletes that Monitor, and the
    Monitor (which has no finalizer yet) is gone from the store. *)
Theorem created_monitor_is_cleaned_up (r : IngressWatcher.IngressWatcherReconciler)
    (req : Key) (w : World) (ingress : Ingress) (target : string) :
  ingresses w !! req = Some ingress →
  key_of (IMeta ingress) = req →
  AnnotatedWatcher.monitoringDisabled ingress = false →
  monitors w !! req = None →
  AnnotatedWatcher.getTargetFromIngress ingress = inl target →
  let w1 := world (AnnotatedWatcher.Reconcile r (quiet "") req w) in
  let o := AnnotatedWatcher.Reconcile r (quiet "") req (without_ingress req w1) in
  ∃ mon,
    monitors w1 !! req = Some mon ∧
    trace o = [GetIngress req; GetMonitor req; DeleteMonitor mon] ∧
    value o = None ∧
    monitors (world o) !! req = None.
Proof.
  intros Hing Hkey Hen Hm Htarget. cbv zeta.
  destruct (annotated_Reconcile_creates r (quiet "") req w ingress target
              eq_refl Hing Hkey Hen eq_refl Hm Htarget eq_refl)
    as (mon & -> & Hkm & Hman & Hsrc & _ & Hfin & _).
  cbn [world create_err quiet]. exists mon.
  split; [apply lookup_insert_eq|].
  unfold AnnotatedWatcher.Reconcile, AnnotatedWatcher.handleIngressDeletion.
  unfold bind, Get_Ingress, Get_Monitor, ret, Delete, without_ingress.
  cbn [get_ingress_err get_monitor_err delete_err quiet ingresses monitors
       set_monitors value world trace app IsNotFound].
  rewrite lookup_delete_eq. cbn [value world trace app IsNotFound monitors].
  rewrite lookup_insert_eq. cbn [value world trace app monitors].
  unfold managed in Hman. rewrite Hman, Hsrc, String.eqb_refl. cbn [negb].
  cbn [value world trace app monitors]. rewrite Hkm, lookup_insert_eq, Hfin.
  cbn [value world trace app monitors set_monitors].
  split; [reflexivity|]. split; [reflexivity|]. apply lookup_delete_eq.
Qed.

Lemma created_monitor_is_cleaned_up_witness :
  let w1 := world (AnnotatedWatcher.Reconcile plain_watcher (quiet "") demo_key
                     (world_of (Some health_ingress) None)) in
  let o := AnnotatedWatcher.Reconcile plain_watcher (quiet "") demo_key
             (without_ingress demo_key w1) in
  ∃ mon, trace o = [GetIngress demo_key; GetMonitor demo_key; DeleteMonitor mon] ∧
         monitors (world o) !! demo_key = None.
Proof.
  cbv zeta.
  destruct (created_monitor_is_cleaned_up plain_watcher demo_key
              (world_of (Some health_ingress) None) health_ingress
              "http://myapp.example.com/health" eq_refl eq_refl eq_refl eq_refl
              eq_refl) as (mon & _ & Ht & _ & Hgone).
  exists mon. split; [exact Ht|exact Hgone].
Defined.

(** X15.  An enabled Ingress from which no target derives.  The validation
    error is returned, and nothing is written, when no Monitor is at the key
    or the Monitor there is managed; when the Monitor there is not managed
    the derivation is not attempted and the reconcile returns success. *)
Theorem underivable_ingress_with_monitor
    (r : IngressWatcher.IngressWatcherReconciler) (env : Env) (req : Key)
    (w : World) (ingress : Ingress) (e : error) :
  get_ingress_err env = None →
  ingresses w !! req = Some ingress →
  AnnotatedWatcher.monitoringDisabled ingress = false →
  get_monitor_err env = None →
  AnnotatedWatcher.getTargetFromIngress ingress = inr e →
  let o := AnnotatedWatcher.Reconcile r env req w in
  trace o = [GetIngress req; GetMonitor req] ∧
  world o = w ∧
  value o = match monitors w !! req with
            | Some m => if managed m then Some e else None
            | None => Some e
            end.
Proof.
  intros Hgeti Hing Hen Hgetm Herr. cbv zeta.
  unfold AnnotatedWatcher.Reconcile, AnnotatedWatcher.updateMonitorIfNeeded,
    AnnotatedWatcher.createMonitorFromIngress, managed.
  unfold_calls. rewrite Hgeti, Hing. reduce_calls. rewrite Hen, Hgetm.
  destruct (monitors w !! req) as [m|]; reduce_calls.
  - destruct (String.eqb (map_index (Labels (Meta m)) "upbot.app/source")
                         "ingress-watcher"); cbn [negb].
    + rewrite Herr. cbn. auto.
    + cbn. auto.
  - rewrite Herr. cbn. auto.
Qed.

Lemma underivable_ingress_with_monitor_witness :
  value (AnnotatedWatcher.Reconcile plain_watcher (quiet "") demo_key
           (world_of (Some ruleless_ingress) (Some owned_monitor))) =
  Some (ErrFmt "no rules found in Ingress").
Proof.
  exact (proj2 (proj2 (underivable_ingress_with_monitor plain_watcher (quiet "")
                         demo_key
                         (world_of (Some ruleless_ingress) (Some owned_monitor))
                         ruleless_ingress (ErrFmt "no rules found in Ingress")
                         eq_refl eq_refl eq_refl eq_refl eq_refl))).
Defined.

(** X18.  A change of the Ingress reaches Upbot as an update.  When the
    revision has brought a managed, synced Monitor in line with its Ingress,
    the next reconcile of the Monitor pushes the derived target and interval
    to Upbot under the identifier the Monitor already has; it issues no
    create and writes nothing to the store. *)
Theorem spec_change_reaches_upbot (r : IngressWatcher.IngressWatcherReconciler)
    (env : Env) (req : Key) (w : World) (ingress : Ingress) (m : Monitor)
    (target : string) :
  ingresses w !! req = Some ingress →
  AnnotatedWatcher.monitoringDisabled ingress = false →
  monitors w !! req = Some m →
  key_of (Meta m) = req →
  managed m = true →
  AnnotatedWatcher.getTargetFromIngress ingress = inl target →
  Time_IsZero (DeletionTimestamp (Meta m)) = true →
  ContainsFinalizer m MonitorController.monitorFinalizer = true →
  ExternalID (Status m) ≠ ""%string →
  get_monitor_err env = None →
  let w1 := world (AnnotatedWatcher.Reconcile r (quiet "") req w) in
  MonitorController.Reconcile env req w1 =
  {| value := upbot_update env;
     world := w1;
     trace := [GetMonitor req;
               UpbotUpdate (ExternalID (Status m))
                 {| ur_Name := Name (Meta m);
                    ur_Type := "http";
                    ur_Target := target;
                    ur_Interval := AnnotatedWatcher.expectedInterval r ingress;
                    ur_RetryCount := 0 |}
                 (upbot_update env)] |}.
Proof.
  intros Hing Hen Hm Hkey Hman Htarget Hlive Hfin Hid Hget. cbv zeta.
  rewrite (annotated_Reconcile_existing r (quiet "") req w ingress m
             eq_refl Hing Hen eq_refl Hm).
  pose proof (updateMonitorIfNeeded_managed r (quiet "") m ingress w target
                Hman Htarget) as Hupd.
  cbv zeta in Hupd. rewrite Hupd. clear Hupd.
  pose proof (in_sync_iff m target (AnnotatedWatcher.expectedInterval r ingress))
    as Hsync.
  destruct (String.eqb (Target (Spec m)) target
            && String.eqb (Interval (Spec m)) (AnnotatedWatcher.expectedInterval r ingress)
            && String.eqb (Type_ (Spec m)) "http").
  - cbn [world].
    rewrite (Reconcile_synced req w m Hm Hlive Hfin env Hget Hid).
    unfold update_request. rewrite (proj1 Hsync eq_refl). reflexivity.
  - unfold Update. cbn [update_err quiet Meta with_spec]. rewrite Hkey, Hm.
    cbn [world]. rewrite store_update_live by exact Hlive.
    set (desired := {| Type_ := "http"; Target := target;
                       Interval := AnnotatedWatcher.expectedInterval r ingress |}).
    set (w1 := set_monitors _ w).
    assert (Hm1 : monitors w1 !! req = Some (with_spec desired m))
      by apply lookup_insert_eq.
    rewrite (Reconcile_synced req w1 (with_spec desired m) Hm1 Hlive Hfin env Hget Hid).
    reflexivity.
Qed.

Lemma spec_change_reaches_upbot_witness :
  let m := demo_monitor [MonitorController.monitorFinalizer] None "ext-1" in
  let w1 := world (AnnotatedWatcher.Reconcile default_watcher (quiet "") demo_key
                     (world_of (Some health_ingress) (Some m))) in
  trace (MonitorController.Reconcile (quiet "") demo_key w1) =
  [GetMonitor demo_key;
   UpbotUpdate "ext-1"
     {| ur_Name := "my-app"; ur_Type := "http";
        ur_Target := "http://myapp.example.com/health"; ur_Interval := "30";
        ur_RetryCount := 0 |} None].
Proof.
  cbv zeta.
  exact (f_equal trace
           (spec_change_reaches_upbot default_watcher (quiet "") demo_key
              (world_of (Some health_ingress)
                 (Some (demo_monitor [MonitorController.monitorFinalizer] None "ext-1")))
              health_ingress
              (demo_monitor [MonitorController.monitorFinalizer] None "ext-1")
              "http://myapp.example.com/health"
              eq_refl eq_refl eq_refl eq_refl eq_refl eq_refl eq_refl eq_refl
              ltac:(discriminate) eq_refl)).
Defined.
